(** * TEL / PQL grammar: lifting a parse tree to the AST and rendering it back

    A shallow embedding of [pql_grammar/from_pql.py] (the lifter) and
    [pql_grammar/to_pql.py] (the renderer).

    Conventions of the embedding
    - a Python [str] is a [string], one [ascii] per character;
    - a Python exception is an [Err] result, threaded through the small
      error monad [result];
    - an ANTLR parse-tree context is a record of its labelled children; a
      child that the grammar did not match is [None], exactly as the
      generated parser leaves the attribute at [None];
    - the builtins [int()] and [float()] applied to a text are parameters
      of the lifter ([py_int], [py_float]); [None] stands for the
      exception they raise;
    - [str.upper] is the ASCII one; the statements below only ask what
      the operator text upper-cases to, so they do not depend on it;
    - the source text a node spans, which [full_text] cuts out of the
      input stream, is a field of the node. *)

From Stdlib Require Import String Ascii List ZArith Bool Lia.
From Stdlib Require Import Floats.SpecFloat.
Import ListNotations.
Local Open Scope string_scope.

(* ------------------------------------------------------------------ *)
(** ** Python strings *)

Module PyStr.

Definition dquote : ascii := "034"%char.
Definition squote : ascii := "039"%char.
Definition backslash : ascii := "092"%char.

(** A one-character string. *)
Definition chr (c : ascii) : string := String c EmptyString.

(** [s == ''], the falsy string. *)
Definition is_empty (s : string) : bool :=
  match s with EmptyString => true | String _ _ => false end.

(** [s[i]] with Python's negative indices; [None] is [IndexError]. *)
Definition index (s : string) (i : Z) : option ascii :=
  let n := Z.of_nat (String.length s) in
  let j := if (i <? 0)%Z then (i + n)%Z else i in
  if ((0 <=? j) && (j <? n))%Z then String.get (Z.to_nat j) s else None.

(** [s[i:j]] with Python's clipping of the bounds. *)
Definition slice (s : string) (i j : Z) : string :=
  let n := Z.of_nat (String.length s) in
  let clip k := Z.min n (Z.max 0 (if (k <? 0)%Z then (k + n)%Z else k)) in
  let a := clip i in
  let b := clip j in
  String.substring (Z.to_nat a) (Z.to_nat (b - a)) s.

(** [s.startswith(p)] *)
Fixpoint startswith (p s : string) : bool :=
  match p, s with
  | EmptyString, _ => true
  | String a p', String b s' => Ascii.eqb a b && startswith p' s'
  | String _ _, EmptyString => false
  end.

(** The left-to-right scan of [s.replace(old, new)] for a non-empty
    [old]; [skip] counts the characters of a match still to be dropped. *)
Fixpoint replace_from (old new : string) (skip : nat) (s : string) : string :=
  match s with
  | EmptyString => EmptyString
  | String c t =>
      match skip with
      | S k => replace_from old new k t
      | O =>
          if startswith old s
          then new ++ replace_from old new (String.length old - 1) t
          else String c (replace_from old new 0 t)
      end
  end.

(** With an empty [old], Python puts [new] around every character. *)
Fixpoint intersperse (new s : string) : string :=
  match s with
  | EmptyString => new
  | String c t => new ++ String c (intersperse new t)
  end.

(** [s.replace(old, new)] *)
Definition replace (old new s : string) : string :=
  if is_empty old then intersperse new s else replace_from old new 0 s.

(** [c.upper()] on one ASCII character: [a]..[z] move to [A]..[Z], any
    other character stays. *)
Definition upper_char (c : ascii) : ascii :=
  let n := nat_of_ascii c in
  if (97 <=? n)%nat && (n <=? 122)%nat then ascii_of_nat (n - 32) else c.

(** [s.upper()] *)
Fixpoint upper (s : string) : string :=
  match s with
  | EmptyString => EmptyString
  | String c t => String (upper_char c) (upper t)
  end.

(** [sep.join(l)] *)
Fixpoint join (sep : string) (l : list string) : string :=
  match l with
  | [] => EmptyString
  | [x] => x
  | x :: t => x ++ sep ++ join sep t
  end.

(** How an f-string shows an optional text: [None] prints as [None]. *)
Definition fmt (o : option string) : string :=
  match o with Some s => s | None => "None" end.

(** [old] occurs somewhere in [s]. *)
Definition occurs (old s : string) : Prop :=
  exists a b, s = a ++ old ++ b.

End PyStr.

(* ------------------------------------------------------------------ *)
(** ** Exceptions and results *)

Inductive exn : Type :=
| ParseError (msg : string)   (* class ParseError(ValueError) *)
| AttributeError              (* attribute access on None *)
| IndexError                  (* tuple index out of range *)
| TypeError.                  (* operand of the wrong type *)

Inductive result (A : Type) : Type :=
| Ok (a : A)
| Err (e : exn).
Arguments Ok {A} a.
Arguments Err {A} e.

Definition bind {A B : Type} (r : result A) (k : A -> result B) : result B :=
  match r with
  | Ok a => k a
  | Err e => Err e
  end.

Notation "x <- c ;; k" := (bind c (fun x => k))
  (at level 61, c at next level, right associativity).

Definition is_ok {A : Type} (r : result A) : bool :=
  match r with Ok _ => true | Err _ => false end.

Section MapM.
Context {A B : Type} (f : A -> result B).

(** A list comprehension [[f(x) for x in l]]: elements are evaluated in
    order and the first exception ends the evaluation. *)
Fixpoint mapM (l : list A) : result (list B) :=
  match l with
  | [] => Ok []
  | x :: t => y <- f x ;; ys <- mapM t ;; Ok (y :: ys)
  end.
End MapM.

(** Calling [f(o)] where [f] starts by reading an attribute of its
    argument: on [None] the read raises [AttributeError]. *)
Definition call {A B : Type} (f : A -> result B) (o : option A) : result B :=
  match o with
  | Some a => f a
  | None => Err AttributeError
  end.

(* ------------------------------------------------------------------ *)
(** ** Python values held by a literal *)

Inductive PyValue : Type :=
| PyNone
| PyBool (b : bool)
| PyInt (z : Z)
| PyFloat (f : spec_float)
| PyText (s : string).

(** The binary64 value [-1.0]. *)
Definition float_minus_one : spec_float := S754_finite true 4503599627370496 (-52).

(** [isinstance(v, (int, float, Decimal))]. In Python [bool] is a subclass
    of [int], so both booleans pass the test. The lifter never builds a
    [Decimal]. *)
Definition is_number (v : PyValue) : bool :=
  match v with
  | PyBool _ | PyInt _ | PyFloat _ => true
  | PyNone | PyText _ => false
  end.

(** [v * -1]: integer arithmetic on [int] and [bool], binary64
    multiplication on [float], sequence repetition on [str]. *)
Definition times_minus_one (v : PyValue) : result PyValue :=
  match v with
  | PyBool b => Ok (PyInt (Z.b2z b * -1))
  | PyInt z => Ok (PyInt (z * -1))
  | PyFloat f => Ok (PyFloat (SFmul 53 1024 f float_minus_one))
  | PyText _ => Ok (PyText EmptyString)
  | PyNone => Err TypeError
  end.

(** [bool(v)], the truth value used by [not v]. *)
Definition truthy (v : PyValue) : bool :=
  match v with
  | PyNone => false
  | PyBool b => b
  | PyInt z => negb (z =? 0)%Z
  | PyFloat (S754_zero _) => false
  | PyFloat _ => true
  | PyText s => negb (PyStr.is_empty s)
  end.

(* ------------------------------------------------------------------ *)
(** ** The parse tree handed over by the generated parser *)

(** [PqlParser.LiteralValueContext]: each token accessor is the presence
    of that token; [lv_text] is what [full_text] extracts for the node. *)
Record LiteralValueContext : Type := {
  NUMERIC_LITERAL : bool;
  DOUBLE_QUOTED_STRING : bool;
  SINGLE_QUOTED_STRING : bool;
  K_NULL : bool;
  K_TRUE : bool;
  K_FALSE : bool;
  lv_text : string
}.

(** [PqlParser.TaxonContext]: the labelled segments, each the text of the
    segment when the grammar matched it. *)
Record TaxonContext : Type := {
  slug : option string;
  namespace : option string;
  is_optional : bool;
  tag : option string
}.

(** [PqlParser.ExprContext] and [PqlParser.FnContext]. Operator labels
    carry the text of the matched token. *)
#[warnings="-register-all"] Inductive ExprContext : Type :=
  mkExprContext
    (inner : option ExprContext)
    (literalValue : option LiteralValueContext)
    (unary_operator : option string)
    (right : option ExprContext)
    (operator : option string)
    (left : option ExprContext)
    (right_list : option (list ExprContext))
    (is_negated : bool)
    (taxon : option TaxonContext)
    (fn : option FnContext)
    (text : string)
with FnContext : Type :=
  mkFnContext
    (function_name : option string)
    (arguments : option (list ExprContext)).

Definition inner (e : ExprContext) : option ExprContext :=
  match e with mkExprContext x _ _ _ _ _ _ _ _ _ _ => x end.
Definition literalValue (e : ExprContext) : option LiteralValueContext :=
  match e with mkExprContext _ x _ _ _ _ _ _ _ _ _ => x end.
Definition unary_operator (e : ExprContext) : option string :=
  match e with mkExprContext _ _ x _ _ _ _ _ _ _ _ => x end.
Definition right (e : ExprContext) : option ExprContext :=
  match e with mkExprContext _ _ _ x _ _ _ _ _ _ _ => x end.
Definition operator (e : ExprContext) : option string :=
  match e with mkExprContext _ _ _ _ x _ _ _ _ _ _ => x end.
Definition left (e : ExprContext) : option ExprContext :=
  match e with mkExprContext _ _ _ _ _ x _ _ _ _ _ => x end.
Definition right_list (e : ExprContext) : option (list ExprContext) :=
  match e with mkExprContext _ _ _ _ _ _ x _ _ _ _ => x end.
Definition is_negated (e : ExprContext) : bool :=
  match e with mkExprContext _ _ _ _ _ _ _ x _ _ _ => x end.
Definition taxon (e : ExprContext) : option TaxonContext :=
  match e with mkExprContext _ _ _ _ _ _ _ _ x _ _ => x end.
Definition fn (e : ExprContext) : option FnContext :=
  match e with mkExprContext _ _ _ _ _ _ _ _ _ x _ => x end.
Definition text (e : ExprContext) : string :=
  match e with mkExprContext _ _ _ _ _ _ _ _ _ _ x => x end.
Definition function_name (f : FnContext) : option string :=
  match f with mkFnContext x _ => x end.
Definition arguments (f : FnContext) : option (list ExprContext) :=
  match f with mkFnContext _ x => x end.

(** [full_text(ctx)] for an optional child: the source text the child
    spans, [None] when the child is absent. *)
Definition full_text (o : option ExprContext) : option string :=
  option_map text o.

(* ------------------------------------------------------------------ *)
(** ** The AST *)

(** Modelled from the spec: the module [pql_grammar/model.py] that declares
    the node classes is not among the sources. The four node kinds are
    those of the spec's data model; the order of the constructor arguments
    is the one of the calls in [from_pql.py], and the attribute names are
    the ones [to_pql.py] reads ([raw_value] is the spec's [raw_text]). A
    tuple of children is a list. *)
#[warnings="-register-all"] Inductive Node : Type :=
| Literal (value : PyValue) (raw_value : string)
| Taxon (slug : option string) (namespace : option string)
        (is_optional : bool) (tag : option string)
| Function (function_name : option string)
           (args : option (list (option string * Node)))
| Expr (operator : string) (args : list Node).

(* ------------------------------------------------------------------ *)
(** ** from_pql.py: the lifter *)

(** The test [wrapper == (q, q)] on the pair of the first and the last
    character. *)
Definition wrapper_is (wrapper : option ascii * option ascii) (q : ascii) : bool :=
  match wrapper with
  | (Some a, Some b) => Ascii.eqb a q && Ascii.eqb b q
  | _ => false
  end.

(** The two escape sequences [unquote] rewrites: a backslash before a
    double quote, and a backslash before a single quote. *)
Definition escaped_dquote : string := String PyStr.backslash (PyStr.chr PyStr.dquote).
Definition escaped_squote : string := String PyStr.backslash (PyStr.chr PyStr.squote).

(** [unquote(s)] on a text. The guard [if not s] returns the empty text as
    it is (and would return [None] as it is); the replacements are the
    TEL-style escapes of the source, the SQL-style ones being commented
    out there. *)
Definition unquote (s : string) : string :=
  if PyStr.is_empty s then s
  else
    let wrapper := (PyStr.index s 0, PyStr.index s (-1)) in
    let s :=
      if wrapper_is wrapper PyStr.dquote || wrapper_is wrapper PyStr.squote
      then PyStr.slice s 1 (-1)
      else s in
    PyStr.replace escaped_squote (PyStr.chr PyStr.squote)
      (PyStr.replace escaped_dquote (PyStr.chr PyStr.dquote) s).

(** [PqlAntlrToAstParser.unwrap_expr_parens] *)
Fixpoint unwrap_expr_parens (e : ExprContext) : ExprContext :=
  match inner e with
  | Some i => unwrap_expr_parens i
  | None => e
  end.

(** [PqlAntlrToAstParser.parse_taxon] *)
Definition parse_taxon (e : TaxonContext) : Node :=
  Taxon (slug e) (namespace e) (is_optional e) (tag e).

(** The text of a label, [None] when the label is unset or its text is
    empty: the test [if v:] on [full_text(ctx.operator)]. *)
Definition if_text (o : option string) : option string :=
  match o with
  | Some s => if PyStr.is_empty s then None else Some s
  | None => None
  end.

Definition msg_number (v : string) : string :=
  "Could not convert SQL number " ++ v ++ " to native number representation.".

Definition msg_between (v : option string) : string :=
  "Contents of BETWEEN's AND expression - " ++ PyStr.fmt v
  ++ " - are not valid. Must be of form `valueA AND valueB`.".

Definition msg_unsupported (v : string) : string :=
  "Where expression " ++ PyStr.chr PyStr.dquote ++ v ++ PyStr.chr PyStr.dquote
  ++ " is not supported yet.".

(** The two rewrites of BETWEEN. *)
Definition between_negated (left' low high : Node) : Node :=
  Expr "OR" [Expr "<" [left'; low]; Expr ">" [left'; high]].

Definition between_plain (left' low high : Node) : Node :=
  Expr "AND" [Expr ">=" [left'; low]; Expr "<=" [left'; high]].

Section Lifter.

(** [int(v)] and [float(v)] on a text; [None] when the builtin raises. *)
Variable py_int : string -> option Z.
Variable py_float : string -> option spec_float.

(** [PqlAntlrToAstParser.parse_literal_value]. The text [v] of the node
    is at hand, so the [IndexError] the source guards against while
    extracting it does not arise. *)
Definition parse_literal_value (e : LiteralValueContext) : result PyValue :=
  let is_number := NUMERIC_LITERAL e in
  let is_string := DOUBLE_QUOTED_STRING e || SINGLE_QUOTED_STRING e in
  let is_null := K_NULL e in
  let is_bool := K_TRUE e || K_FALSE e in
  if is_null then Ok PyNone
  else if is_bool then Ok (PyBool (K_TRUE e))
  else
    let v := lv_text e in
    if is_number then
      match py_int v with
      | Some z => Ok (PyInt z)
      | None =>
          match py_float v with
          | Some f => Ok (PyFloat f)
          | None => Err (ParseError (msg_number v))
          end
      end
    else if is_string then Ok (PyText (unquote v))
    else Ok (PyText v).

(** [PqlAntlrToAstParser.parse_literal] *)
Definition parse_literal (e : LiteralValueContext) : result Node :=
  value <- parse_literal_value e ;;
  Ok (Literal value (lv_text e)).

(** [PqlAntlrToAstParser.parse_function_argument_pair]; the class method
    [parse_expr] it calls back is the argument [parse_expr]. *)
Definition parse_function_argument_pair
    (parse_expr : ExprContext -> result Node) (e0 : ExprContext)
    : result (option string * Node) :=
  let e := unwrap_expr_parens e0 in
  let o := operator e in
  match o with
  | Some "=" =>
      let arg_name := full_text (left e) in
      arg_value <- call parse_expr (right e) ;;
      Ok (arg_name, arg_value)
  | _ =>
      arg_value <- parse_expr e ;;
      Ok (None, arg_value)
  end.

(** [PqlAntlrToAstParser.parse_function] *)
Definition parse_function
    (parse_expr : ExprContext -> result Node) (e : FnContext) : result Node :=
  match arguments e with
  | Some l =>
      args <- mapM (parse_function_argument_pair parse_expr) l ;;
      Ok (Function (function_name e) (Some args))
  | None => Ok (Function (function_name e) None)
  end.

(** The unary branch of [parse_expr], after the operand was lifted. *)
Definition unary_expr (ctx : ExprContext) (operator' : string) (right' : Node)
    : result Node :=
  if operator' =? "+" then Ok right'
  else
    match right' with
    | Literal value _ =>
        if (operator' =? "-") && is_number value then
          v <- times_minus_one value ;;
          Ok (Literal v (text ctx))
        else if operator' =? "NOT" then
          let v := negb (truthy value) in
          Ok (Literal (PyBool v) (if v then "true" else "false"))
        else Ok (Expr operator' [right'])
    | _ => Ok (Expr operator' [right'])
    end.

(** The BETWEEN branch of [parse_expr], after both sides were lifted. *)
Definition between_expr (ctx : ExprContext) (left' between_and : Node)
    : result Node :=
  match between_and with
  | Expr o [low; high] =>
      if o =? "AND" then
        Ok (if is_negated ctx
            then between_negated left' low high
            else between_plain left' low high)
      else Err (ParseError (msg_between (full_text (right ctx))))
  | _ => Err (ParseError (msg_between (full_text (right ctx))))
  end.

(** The body of [parse_expr] below its first statement: [ctx] is the node
    left once the parens are unwrapped, [parse_expr] the method itself. *)
Definition parse_expr_body
    (parse_expr : ExprContext -> result Node) (ctx : ExprContext)
    : result Node :=
  match literalValue ctx with
  | Some v => parse_literal v
  | None =>
  match unary_operator ctx with
  | Some v =>
      let operator' := PyStr.upper v in
      right' <- call parse_expr (right ctx) ;;
      unary_expr ctx operator' right'
  | None =>
  match if_text (operator ctx) with
  | Some v =>
      let op := PyStr.upper v in
      right' <-
        match right_list ctx with
        | Some l => mapM parse_expr l
        | None => r <- call parse_expr (right ctx) ;; Ok [r]
        end ;;
      if op =? "BETWEEN" then
        left' <- call parse_expr (left ctx) ;;
        between_and <- call parse_expr (right ctx) ;;
        between_expr ctx left' between_and
      else
        left' <- call parse_expr (left ctx) ;;
        let ex := Expr op (left' :: right') in
        if is_negated ctx then Ok (Expr "NOT" [ex]) else Ok ex
  | None =>
  match taxon ctx with
  | Some v => Ok (parse_taxon v)
  | None =>
  match fn ctx with
  | Some v => parse_function parse_expr v
  | None => Err (ParseError (msg_unsupported (text ctx)))
  end end end end end.

(** [PqlAntlrToAstParser.parse_expr] *)
Fixpoint parse_expr (ctx : ExprContext) : result Node :=
  parse_expr_body parse_expr (unwrap_expr_parens ctx).

End Lifter.

(* ------------------------------------------------------------------ *)
(** ** to_pql.py: the renderer *)

(** [Expr.__str__]; [to_r] is the renderer of the children. The reads
    [args[FIRST]] and [args[SECOND]] are the patterns on the tuple, and a
    tuple too short for the read raises [IndexError]. *)
Definition Expr_str (to_r : Node -> result string)
    (op : string) (args : list Node) : result string :=
  if (List.length args =? 1)%nat then
    match args with
    | right' :: _ =>
        let padding := if (op =? "+") || (op =? "-") then "" else " " in
        r <- to_r right' ;;
        Ok (op ++ padding ++ r)
    | [] => Err IndexError
    end
  else
    match args with
    | left' :: right' :: _ =>
        l <- to_r left' ;;
        r <- to_r right' ;;
        Ok ("(" ++ l ++ " " ++ op ++ " " ++ r ++ ")")
    | _ => Err IndexError
    end.

(** [Literal.__str__] *)
Definition Literal_str (raw_value : string) : result string :=
  Ok raw_value.

(** [Taxon.__str__] *)
Definition Taxon_str (slug namespace : option string) (is_optional : bool)
    (tag : option string) : result string :=
  let is_optional' := if is_optional then "?" else "" in
  let namespace' :=
    match if_text namespace with Some n => n ++ "|" | None => "" end in
  let tag' :=
    match if_text tag with Some t => ":" ++ t | None => "" end in
  Ok (is_optional' ++ namespace' ++ PyStr.fmt slug ++ tag').

(** One argument of [Function.__str__]. *)
Definition Function_arg (to_r : Node -> result string)
    (p : option string * Node) : result string :=
  match p with
  | (n, v) =>
      r <- to_r v ;;
      match if_text n with
      | Some n' => Ok (n' ++ "=" ++ r)
      | None => Ok r
      end
  end.

(** [Function.__str__] *)
Definition Function_str (to_r : Node -> result string)
    (function_name : option string)
    (args : option (list (option string * Node))) : result string :=
  rendered <-
    match args with
    | Some l => mapM (Function_arg to_r) l
    | None => Ok []   (* self.n.args or [] *)
    end ;;
  Ok (PyStr.fmt function_name ++ "(" ++ PyStr.join "," rendered ++ ")").

(** [to_r] followed by [str]: the renderer class is looked up by the kind
    of the node and its [__str__] produces the text. *)
Fixpoint to_r (n : Node) : result string :=
  match n with
  | Expr op args => Expr_str to_r op args
  | Literal _ raw_value => Literal_str raw_value
  | Taxon slug namespace is_optional tag =>
      Taxon_str slug namespace is_optional tag
  | Function function_name args => Function_str to_r function_name args
  end.

(** [to_tel] *)
Definition to_tel (o : Node) : result string := to_r o.

(* ------------------------------------------------------------------ *)
(** ** Shapes of parse-tree nodes *)

(** [s] starts and ends with the same quote character [q], a double or a
    single quote: the wrapper [unquote] recognizes. *)
Definition has_wrapper (s : string) : Prop :=
  exists q, (q = PyStr.dquote \/ q = PyStr.squote) /\
            PyStr.index s 0 = Some q /\ PyStr.index s (-1) = Some q.

(** [w] is [e] inside any number of pure paren wrappers. *)
Inductive wraps : ExprContext -> ExprContext -> Prop :=
| wraps_here (e : ExprContext) : wraps e e
| wraps_paren (w i e : ExprContext) :
    inner w = Some i -> wraps i e -> wraps w e.

(** A node whose first matching rule is the unary one, with the operator
    spelled [op] once upper-cased. *)
Definition is_unary (e : ExprContext) (op : string) : Prop :=
  literalValue e = None /\
  exists v, unary_operator e = Some v /\ PyStr.upper v = op.

(** A node whose first matching rule is the infix one. *)
Definition is_infix (e : ExprContext) (op : string) : Prop :=
  literalValue e = None /\ unary_operator e = None /\
  exists v, if_text (operator e) = Some v /\ PyStr.upper v = op.

(** A node whose first matching rule is the taxon one. *)
Definition is_taxon (e : ExprContext) (t : TaxonContext) : Prop :=
  literalValue e = None /\ unary_operator e = None /\
  if_text (operator e) = None /\ taxon e = Some t.

(** [n] is [Expr('AND', (low, high))] for some [low] and [high]. *)
Definition is_and_pair (n : Node) : Prop :=
  exists low high, n = Expr "AND" [low; high].

(* ------------------------------------------------------------------ *)
(** ** Sample parse trees *)

Module Sample.

(** [int()] restricted to plain runs of the digits 0 to 9, on which it is
    the decimal reading; enough for the literals of the samples. *)
Fixpoint digits (acc : Z) (s : string) : option Z :=
  match s with
  | EmptyString => Some acc
  | String c t =>
      let n := nat_of_ascii c in
      if (48 <=? n)%nat && (n <=? 57)%nat
      then digits (10 * acc + Z.of_nat (n - 48)) t
      else None
  end.

Definition int (s : string) : option Z :=
  if PyStr.is_empty s then None else digits 0 s.

(** No sample holds a text that only [float()] reads. *)
Definition float (s : string) : option spec_float := None.

Definition node : ExprContext :=
  mkExprContext None None None None None None None false None None "".

(** A numeric literal written [s]. *)
Definition number (s : string) : ExprContext :=
  mkExprContext None
    (Some {| NUMERIC_LITERAL := true; DOUBLE_QUOTED_STRING := false;
             SINGLE_QUOTED_STRING := false; K_NULL := false;
             K_TRUE := false; K_FALSE := false; lv_text := s |})
    None None None None None false None None s.

(** The keyword [true]. *)
Definition kw_true : ExprContext :=
  mkExprContext None
    (Some {| NUMERIC_LITERAL := false; DOUBLE_QUOTED_STRING := false;
             SINGLE_QUOTED_STRING := false; K_NULL := false;
             K_TRUE := true; K_FALSE := false; lv_text := "true" |})
    None None None None None false None None "true".

(** A bare taxon [s], and the taxon context under it. *)
Definition bare (s : string) : TaxonContext :=
  {| slug := Some s; namespace := None; is_optional := false; tag := None |}.

Definition name (s : string) : ExprContext :=
  mkExprContext None None None None None None None false (Some (bare s)) None s.

(** [( e )] *)
Definition paren (e : ExprContext) : ExprContext :=
  mkExprContext (Some e) None None None None None None false None None
    ("(" ++ text e ++ ")").

(** [op e] *)
Definition unary (op : string) (e : ExprContext) : ExprContext :=
  mkExprContext None None (Some op) (Some e) None None None false None None
    (op ++ text e).

(** [l op r], and [l NOT op r] when [neg] is set. *)
Definition infix (l : ExprContext) (neg : bool) (op : string) (r : ExprContext)
    : ExprContext :=
  mkExprContext None None None (Some r) (Some op) (Some l) None neg None None
    (text l ++ (if neg then " NOT " else " ") ++ op ++ " " ++ text r).

(** [l op (e1, e2, ...)], and [l NOT op (...)] when [neg] is set. *)
Definition infix_list (l : ExprContext) (neg : bool) (op : string)
    (es : list ExprContext) : ExprContext :=
  mkExprContext None None None None (Some op) (Some l) (Some es) neg None None
    (text l ++ (if neg then " NOT " else " ") ++ op ++ " ("
     ++ PyStr.join "," (map text es) ++ ")").

(** [x BETWEEN 1 AND 10] and its negated form. *)
Definition x_between (neg : bool) : ExprContext :=
  infix (name "x") neg "BETWEEN" (infix (number "1") false "AND" (number "10")).

(** [x IN (1,2,3)] and [x NOT IN (1,2,3)]. *)
Definition x_in (neg : bool) : ExprContext :=
  infix_list (name "x") neg "IN" [number "1"; number "2"; number "3"].

(** [x BETWEEN 1], with no AND on the right. *)
Definition x_between_1 : ExprContext :=
  infix (name "x") false "between" (number "1").

(** [-true] *)
Definition minus_true : ExprContext := unary "-" kw_true.

(** A taxon whose slug is written with its quotes. *)
Definition quoted_slug : string :=
  PyStr.chr PyStr.dquote ++ "a b" ++ PyStr.chr PyStr.dquote.

(** The four characters a, backslash, double quote, b: an escaped quote
    with no wrapper around the text. *)
Definition escaped_text : string := "a" ++ escaped_dquote ++ "b".

End Sample.

(* ------------------------------------------------------------------ *)
(** ** Predicates on parse trees and on lifted trees *)

(** A property holds of an optional child, of the children of an
    optional list, of the arguments of an optional function node. *)
Definition on_child (P : ExprContext -> Prop) (o : option ExprContext) : Prop :=
  match o with Some x => P x | None => True end.

Definition on_children (P : ExprContext -> Prop)
    (o : option (list ExprContext)) : Prop :=
  match o with Some l => Forall P l | None => True end.

Definition on_fn (P : ExprContext -> Prop) (o : option FnContext) : Prop :=
  match o with Some f => on_children P (arguments f) | None => True end.

(** A node whose first matching rule is the function one. *)
Definition is_function (e : ExprContext) (fc : FnContext) : Prop :=
  literalValue e = None /\ unary_operator e = None /\
  if_text (operator e) = None /\ taxon e = None /\ fn e = Some fc.

(** Every [Expr] node of a tree, at any depth and also under the
    arguments of a function, passes the test [q] on its operator and its
    arguments. *)
Fixpoint every_expr (q : string -> list Node -> bool) (n : Node) : bool :=
  match n with
  | Expr op args => q op args && forallb (every_expr q) args
  | Function _ (Some l) => forallb (fun p => every_expr q (snd p)) l
  | _ => true
  end.

(** The node has at least one argument. *)
Definition has_operand (op : string) (args : list Node) : bool :=
  negb (List.length args =? 0)%nat.

(** The operator is left as it is by [upper]. *)
Definition upper_case (op : string) (args : list Node) : bool :=
  PyStr.upper op =? op.

Definition canonical (op : string) (args : list Node) : bool :=
  has_operand op args && upper_case op args.

(** Every [Expr] node of the tree is canonical. *)
Definition canonical_tree (n : Node) : Prop := every_expr canonical n = true.

(** The two replacements at the end of [unquote]. *)
Definition unescape (s : string) : string :=
  PyStr.replace escaped_squote (PyStr.chr PyStr.squote)
    (PyStr.replace escaped_dquote (PyStr.chr PyStr.dquote) s).

(** An optional segment of a rendered taxon: nothing when the segment is
    absent or empty, the segment between [before] and [after] otherwise. *)
Definition segment (before : string) (o : option string) (after : string) : string :=
  match o with
  | Some s => if PyStr.is_empty s then "" else before ++ s ++ after
  | None => ""
  end.

(** What the induction over parse trees carries for a node: its lift, and
    the lift of the right child of the node under its parens, have only
    canonical [Expr] nodes. *)
Definition lifts_canonical (py_int : string -> option Z)
    (py_float : string -> option spec_float) (e : ExprContext) : Prop :=
  (forall n, parse_expr py_int py_float e = Ok n -> canonical_tree n) /\
  (forall r n, right (unwrap_expr_parens e) = Some r ->
               parse_expr py_int py_float r = Ok n -> canonical_tree n).

(** More sample trees. *)
Module Probe.

(** The literal context of a double-quoted token written [s]. *)
Definition quoted_token (s : string) : LiteralValueContext :=
  {| NUMERIC_LITERAL := false; DOUBLE_QUOTED_STRING := true;
     SINGLE_QUOTED_STRING := false; K_NULL := false;
     K_TRUE := false; K_FALSE := false; lv_text := s |}.

(** A quoted string literal written [s], quotes included. *)
Definition quoted (s : string) : ExprContext :=
  mkExprContext None (Some (quoted_token s))
    None None None None None false None None s.

(** The literal context of a numeric token written [s]. *)
Definition numeric (s : string) : LiteralValueContext :=
  {| NUMERIC_LITERAL := true; DOUBLE_QUOTED_STRING := false;
     SINGLE_QUOTED_STRING := false; K_NULL := false;
     K_TRUE := false; K_FALSE := false; lv_text := s |}.

(** [f(x,1)] *)
Definition f_call : FnContext :=
  mkFnContext (Some "f") (Some [Sample.name "x"; Sample.number "1"]).

Definition f_x_1 : ExprContext :=
  mkExprContext None None None None None None None false None (Some f_call)
    "f(x,1)".

(** [(a = 1)], an argument written inside parens. *)
Definition a_is_1 : ExprContext :=
  Sample.infix (Sample.name "a") false "=" (Sample.number "1").

(** [x IN (1,1x,3)], whose second element is no number. *)
Definition x_in_bad : ExprContext :=
  Sample.infix_list (Sample.name "x") false "IN"
    [Sample.number "1"; Sample.number "1x"; Sample.number "3"].

(** [x IN ()] *)
Definition x_in_none : ExprContext :=
  Sample.infix_list (Sample.name "x") false "IN" [].

(** The taxon [?ns|slug:tag]. *)
Definition full_taxon : TaxonContext :=
  {| slug := Some "slug"; namespace := Some "ns"; is_optional := true;
     tag := Some "tag" |}.

Definition tagged : ExprContext :=
  mkExprContext None None None None None None None false (Some full_taxon)
    None "?ns|slug:tag".

(** [--5] *)
Definition minus_minus_5 : ExprContext :=
  Sample.unary "-" (Sample.unary "-" (Sample.number "5")).


(** The lift of [x NOT BETWEEN 1 AND 10]. *)
Definition x_outside : Node :=
  Expr "OR"
    [Expr "<" [Taxon (Some "x") None false None; Literal (PyInt 1) "1"];
     Expr ">" [Taxon (Some "x") None false None; Literal (PyInt 10) "10"]].

End Probe.

(* ------------------------------------------------------------------ *)
(** ** Facts about the string operations *)

Lemma startswith_split (p s : string) :
  PyStr.startswith p s = true -> exists b, s = p ++ b.
Proof.
  revert s; induction p as [|a p IH]; intros s H.
  - exists s; reflexivity.
  - destruct s as [|c s]; simpl in H; [discriminate|].
    apply andb_prop in H as [Hc Hs].
    apply Ascii.eqb_eq in Hc; subst c.
    destruct (IH _ Hs) as [b ->].
    exists b; reflexivity.
Qed.

Lemma occurs_tail (old : string) (c : ascii) (t : string) :
  PyStr.occurs old t -> PyStr.occurs old (String c t).
Proof.
  intros [a [b ->]]. exists (String c a), b. reflexivity.
Qed.

Lemma replace_from_absent (old new s : string) :
  ~ PyStr.occurs old s -> PyStr.replace_from old new 0 s = s.
Proof.
  induction s as [|c t IH]; intros Habs; simpl; [reflexivity|].
  destruct (PyStr.startswith old (String c t)) eqn:E.
  - exfalso. apply Habs.
    destruct (startswith_split _ _ E) as [b Hb].
    exists EmptyString, b. exact Hb.
  - f_equal. apply IH. intros Hocc. apply Habs. now apply occurs_tail.
Qed.

Lemma replace_absent (old new s : string) :
  PyStr.is_empty old = false -> ~ PyStr.occurs old s ->
  PyStr.replace old new s = s.
Proof.
  intros Hne Habs. unfold PyStr.replace. rewrite Hne.
  now apply replace_from_absent.
Qed.

Lemma wrapper_is_true (a b : option ascii) (q : ascii) :
  wrapper_is (a, b) q = true -> a = Some q /\ b = Some q.
Proof.
  destruct a as [x|], b as [y|]; simpl; try discriminate.
  intros H. apply andb_prop in H as [Hx Hy].
  apply Ascii.eqb_eq in Hx, Hy. now subst.
Qed.

Lemma no_wrapper_test (s : string) :
  ~ has_wrapper s ->
  wrapper_is (PyStr.index s 0, PyStr.index s (-1)) PyStr.dquote
  || wrapper_is (PyStr.index s 0, PyStr.index s (-1)) PyStr.squote = false.
Proof.
  intros Hno. apply orb_false_intro.
  - destruct (wrapper_is _ PyStr.dquote) eqn:E; [|reflexivity].
    exfalso. apply Hno. exists PyStr.dquote.
    apply wrapper_is_true in E. tauto.
  - destruct (wrapper_is _ PyStr.squote) eqn:E; [|reflexivity].
    exfalso. apply Hno. exists PyStr.squote.
    apply wrapper_is_true in E. tauto.
Qed.

(* ------------------------------------------------------------------ *)
(** ** unquote *)

(** C3, as amended. A text with no recognized wrapper is not stripped, but
    it still goes through the two replacements: [unquote] returns it with
    every backslash-escaped double quote, then every backslash-escaped
    single quote, replaced by the bare quote. It comes back unchanged when
    it holds neither escape sequence. *)
Theorem unquote_no_wrapper (s : string) :
  ~ has_wrapper s ->
  unquote s =
    PyStr.replace escaped_squote (PyStr.chr PyStr.squote)
      (PyStr.replace escaped_dquote (PyStr.chr PyStr.dquote) s)
  /\ (~ PyStr.occurs escaped_dquote s -> ~ PyStr.occurs escaped_squote s ->
      unquote s = s).
Proof.
  intros Hno.
  assert (Heq : unquote s =
    PyStr.replace escaped_squote (PyStr.chr PyStr.squote)
      (PyStr.replace escaped_dquote (PyStr.chr PyStr.dquote) s)).
  { unfold unquote. destruct s as [|c t]; [reflexivity|].
    cbn [PyStr.is_empty]. rewrite (no_wrapper_test _ Hno). reflexivity. }
  split; [exact Heq|].
  intros Hd Hs. rewrite Heq.
  rewrite (replace_absent escaped_dquote) by (reflexivity || assumption).
  now apply replace_absent.
Qed.

Lemma sample_text_has_no_wrapper : ~ has_wrapper Sample.escaped_text.
Proof.
  intros [q [Hq [Hfirst _]]].
  vm_compute in Hfirst. injection Hfirst as <-.
  destruct Hq as [Hq|Hq]; vm_compute in Hq; discriminate Hq.
Defined.

Lemma unquote_no_wrapper_witness :
  ~ has_wrapper Sample.escaped_text /\
  unquote Sample.escaped_text =
    PyStr.replace escaped_squote (PyStr.chr PyStr.squote)
      (PyStr.replace escaped_dquote (PyStr.chr PyStr.dquote) Sample.escaped_text).
Proof.
  split; [exact sample_text_has_no_wrapper|].
  exact (proj1 (unquote_no_wrapper Sample.escaped_text sample_text_has_no_wrapper)).
Defined.

(** C3, as stated, fails: the text a, backslash, double quote, b has no
    wrapper, and [unquote] returns it without the backslash. *)
Lemma unquote_no_wrapper_changes :
  ~ has_wrapper Sample.escaped_text /\
  unquote Sample.escaped_text = "a" ++ PyStr.chr PyStr.dquote ++ "b" /\
  unquote Sample.escaped_text <> Sample.escaped_text.
Proof.
  split; [exact sample_text_has_no_wrapper|].
  split; [reflexivity|].
  vm_compute. discriminate.
Qed.

(** C10. On the one-character text made of a double quote, and on the one
    made of a single quote, [unquote] returns the empty text: the first
    and the last character are the same quote, so the test for a wrapper
    succeeds and the slice between them is empty. *)
Theorem unquote_lone_quote :
  unquote (PyStr.chr PyStr.dquote) = EmptyString /\
  unquote (PyStr.chr PyStr.squote) = EmptyString /\
  has_wrapper (PyStr.chr PyStr.dquote) /\
  has_wrapper (PyStr.chr PyStr.squote).
Proof.
  repeat split.
  - exists PyStr.dquote. repeat split. now left.
  - exists PyStr.squote. repeat split. now right.
Qed.

(* ------------------------------------------------------------------ *)
(** ** The lifter *)

Section LifterFacts.

Variable py_int : string -> option Z.
Variable py_float : string -> option spec_float.

Local Abbreviation lift := (parse_expr py_int py_float).
Local Abbreviation lift_body := (parse_expr_body py_int py_float lift).

Lemma parse_expr_eq (ctx : ExprContext) :
  lift ctx = lift_body (unwrap_expr_parens ctx).
Proof. destruct ctx; reflexivity. Qed.

Lemma unwrap_inner (w i : ExprContext) :
  inner w = Some i -> unwrap_expr_parens w = unwrap_expr_parens i.
Proof. destruct w; simpl; intros ->; reflexivity. Qed.

Lemma unwrap_wraps (w e : ExprContext) :
  wraps w e -> unwrap_expr_parens w = unwrap_expr_parens e.
Proof.
  induction 1 as [e|w i e Hin _ IH]; [reflexivity|].
  rewrite (unwrap_inner _ _ Hin). exact IH.
Qed.

(** Running the steps of [parse_expr] on a node of a known shape. *)
Ltac enter_unary H :=
  let v := fresh "v" in
  let Hlit := fresh "Hlit" in
  let Hop := fresh "Hop" in
  let Hup := fresh "Hup" in
  destruct H as (Hlit & v & Hop & Hup);
  rewrite parse_expr_eq; unfold parse_expr_body;
  rewrite Hlit, Hop, Hup.

Ltac enter_infix H :=
  let v := fresh "v" in
  let Hlit := fresh "Hlit" in
  let Hun := fresh "Hun" in
  let Hop := fresh "Hop" in
  let Hup := fresh "Hup" in
  destruct H as (Hlit & Hun & v & Hop & Hup);
  rewrite parse_expr_eq; unfold parse_expr_body;
  rewrite Hlit, Hun, Hop, Hup.

(** C5. Lifting an expression node wrapped in any number of pure paren
    wrappers gives the result of lifting the node itself. *)
Theorem parse_expr_parens (w e : ExprContext) :
  wraps w e -> lift w = lift e.
Proof.
  intros H. rewrite (parse_expr_eq w), (parse_expr_eq e).
  now rewrite (unwrap_wraps _ _ H).
Qed.

(** C6. Lifting a unary node whose operator is [+] gives exactly the
    result of lifting its operand: no node stands for the operator. *)
Theorem parse_expr_unary_plus (ctx x : ExprContext) :
  is_unary (unwrap_expr_parens ctx) "+" ->
  right (unwrap_expr_parens ctx) = Some x ->
  lift ctx = lift x.
Proof.
  intros H Hx. enter_unary H. rewrite Hx. simpl call.
  destruct (lift x); reflexivity.
Qed.

(** C1. A BETWEEN node whose right side lifts to a two-argument AND: with
    [a] the lift of the left side and [b], [c] the two arguments, the node
    lifts to [AND(>=(a,b), <=(a,c))] when it is not negated and to
    [OR(<(a,b), >(a,c))] when it is; the negation flag adds no outer NOT.
    (A right-hand list, when the node has one besides, must lift too.) *)
Theorem parse_expr_between (ctx l r : ExprContext) (a b c : Node) :
  let e := unwrap_expr_parens ctx in
  is_infix e "BETWEEN" ->
  (forall es, right_list e = Some es -> is_ok (mapM lift es) = true) ->
  left e = Some l -> lift l = Ok a ->
  right e = Some r -> lift r = Ok (Expr "AND" [b; c]) ->
  lift ctx =
    Ok (if is_negated e
        then Expr "OR" [Expr "<" [a; b]; Expr ">" [a; c]]
        else Expr "AND" [Expr ">=" [a; b]; Expr "<=" [a; c]]).
Proof.
  intros e H Hlist Hl Ha Hr Hbc. subst e. enter_infix H.
  rewrite Hl, Hr. simpl call. rewrite Ha, Hbc.
  destruct (right_list (unwrap_expr_parens ctx)) as [es|] eqn:Hes.
  - specialize (Hlist es eq_refl).
    destruct (mapM lift es); [|discriminate Hlist].
    simpl. destruct (is_negated _); reflexivity.
  - simpl. destruct (is_negated _); reflexivity.
Qed.

Lemma between_expr_malformed (e : ExprContext) (a n : Node) :
  ~ is_and_pair n ->
  between_expr e a n = Err (ParseError (msg_between (full_text (right e)))).
Proof.
  intros Hno. destruct n as [| | |o args]; try reflexivity.
  destruct args as [|x [|y [|z rest]]]; try reflexivity.
  simpl. destruct (o =? "AND") eqn:E; [|reflexivity].
  apply String.eqb_eq in E. subst o.
  exfalso. apply Hno. now exists x, y.
Qed.

(** C2. A BETWEEN node whose right side does not lift to a two-argument
    AND does not lift: the result is an error and no node. When the
    operands themselves lift, the error is the [ParseError] on the contents
    of BETWEEN's AND expression, which quotes the text of the right side. *)
Theorem parse_expr_between_malformed (ctx : ExprContext) :
  let e := unwrap_expr_parens ctx in
  is_infix e "BETWEEN" ->
  (forall r n, right e = Some r -> lift r = Ok n -> ~ is_and_pair n) ->
  exists err,
    lift ctx = Err err /\
    (forall l a r n,
        (forall es, right_list e = Some es -> is_ok (mapM lift es) = true) ->
        left e = Some l -> lift l = Ok a ->
        right e = Some r -> lift r = Ok n ->
        err = ParseError (msg_between (Some (text r)))).
Proof.
  intros e H Hbad. subst e. enter_infix H.
  set (e := unwrap_expr_parens ctx) in *.
  rewrite String.eqb_refl.
  destruct (right e) as [r|] eqn:Hr; simpl call;
    [destruct (lift r) as [n|x] eqn:Hn|];
    (destruct (right_list e) as [es|] eqn:Hes;
      [destruct (mapM lift es) as [rs|y] eqn:Hm|]); simpl;
    try (destruct (left e) as [l|] eqn:Hl; simpl;
      [destruct (lift l) as [a|z] eqn:Ha; simpl|]);
    try rewrite (between_expr_malformed e a n (Hbad r n eq_refl Hn));
    (eexists; split; [reflexivity|]);
    intros l0 a0 r0 n0 Hlist Hl0 Ha0 Hr0 Hn0;
    try congruence;
    try (specialize (Hlist es eq_refl); rewrite Hm in Hlist; discriminate Hlist).
  all: rewrite Hr; injection Hr0 as <-; reflexivity.
Qed.

Lemma mapM_Forall2 (es : list ExprContext) (rs : list Node) :
  Forall2 (fun x y => lift x = Ok y) es rs -> mapM lift es = Ok rs.
Proof.
  induction 1 as [|x y es rs Hx _ IH]; simpl; [reflexivity|].
  now rewrite Hx, IH.
Qed.

(** The part of C4 that holds: unary minus over a non-literal, or over a
    literal whose value fails the test [isinstance(value, (int, float,
    Decimal))], stays an explicit unary node. *)
Lemma parse_expr_unary_minus_explicit (ctx x : ExprContext) (n : Node) :
  is_unary (unwrap_expr_parens ctx) "-" ->
  right (unwrap_expr_parens ctx) = Some x ->
  lift x = Ok n ->
  (forall v raw, n = Literal v raw -> is_number v = false) ->
  lift ctx = Ok (Expr "-" [n]).
Proof.
  intros H Hx Hn Hv. enter_unary H. rewrite Hx. simpl call. rewrite Hn.
  simpl bind. unfold unary_expr. simpl (_ =? _).
  destruct n as [value raw| | |]; try reflexivity.
  rewrite (Hv value raw eq_refl). reflexivity.
Qed.

(** C4, at the input it fails on. The operand of [-true] lifts to the
    boolean literal [true]; a boolean passes the test for an [int], so the
    node is folded into [Literal(-1, '-true')] and is not the unary node
    [Expr('-', (Literal(True, 'true'),))]. *)
Theorem parse_expr_minus_true :
  lift Sample.kw_true = Ok (Literal (PyBool true) "true") /\
  lift Sample.minus_true = Ok (Literal (PyInt (-1)) "-true") /\
  lift Sample.minus_true <> Ok (Expr "-" [Literal (PyBool true) "true"]).
Proof.
  repeat split. discriminate.
Qed.

(** C7, as amended. An infix node with a right-hand list, an operator
    other than BETWEEN, and operands that lift, builds [Expr(OP, (left,
    elem1, elem2, ...))] with every element of the list in order; the node
    lifts to it when it is not negated, and to [Expr('NOT', (it,))] when
    it is. Rendering an [Expr] of two arguments or more reads the first
    two only. Rendering the lift of [x IN (1,2,3)] gives [(x IN 1)]. *)
Theorem parse_expr_list_and_render :
  (forall (ctx l : ExprContext) (op : string) (es : list ExprContext)
          (a : Node) (rs : list Node),
      let e := unwrap_expr_parens ctx in
      is_infix e op -> op <> "BETWEEN" ->
      right_list e = Some es ->
      Forall2 (fun x y => lift x = Ok y) es rs ->
      left e = Some l -> lift l = Ok a ->
      lift ctx =
        Ok (if is_negated e
            then Expr "NOT" [Expr op (a :: rs)]
            else Expr op (a :: rs))) /\
  (forall (op : string) (a b : Node) (rest : list Node),
      to_tel (Expr op (a :: b :: rest)) =
        (l <- to_tel a ;; r <- to_tel b ;;
         Ok ("(" ++ l ++ " " ++ op ++ " " ++ r ++ ")"))) /\
  (py_int "1" = Some 1%Z -> py_int "2" = Some 2%Z -> py_int "3" = Some 3%Z ->
   lift (Sample.x_in false) =
     Ok (Expr "IN" [Taxon (Some "x") None false None; Literal (PyInt 1) "1";
                    Literal (PyInt 2) "2"; Literal (PyInt 3) "3"]) /\
   (n <- lift (Sample.x_in false) ;; to_tel n) = Ok "(x IN 1)").
Proof.
  split; [|split].
  - intros ctx l op es a rs e H Hop Hes Hrs Hl Ha. subst e. enter_infix H.
    rewrite Hes, Hl. simpl call. rewrite (mapM_Forall2 _ _ Hrs), Ha.
    apply String.eqb_neq in Hop. simpl. rewrite Hop.
    destruct (is_negated _); reflexivity.
  - reflexivity.
  - intros H1 H2 H3.
    assert (Hlift : lift (Sample.x_in false) =
      Ok (Expr "IN" [Taxon (Some "x") None false None; Literal (PyInt 1) "1";
                     Literal (PyInt 2) "2"; Literal (PyInt 3) "3"])).
    { cbv. rewrite H1, H2, H3. reflexivity. }
    split; [exact Hlift|]. rewrite Hlift. reflexivity.
Qed.

(** C8. Rendering a literal the lifter produced returns its [raw_value],
    the field the spec calls [raw_text], character for character; so does
    rendering the result of the lift. *)
Theorem literal_round_trip (ctx : ExprContext) (v : PyValue) (raw : string) :
  lift ctx = Ok (Literal v raw) ->
  to_tel (Literal v raw) = Ok raw /\
  (n <- lift ctx ;; to_tel n) = Ok raw.
Proof.
  intros H. split; [reflexivity|]. rewrite H. reflexivity.
Qed.

(** C9, as amended. A taxon node lifts to a [Taxon] whose slug, namespace
    and tag are the source texts of the segments as they are written (and
    absent when the segment is), with no call of [unquote]; [is_optional]
    is the presence of the marker. *)
Theorem parse_expr_taxon (ctx : ExprContext) (t : TaxonContext) :
  is_taxon (unwrap_expr_parens ctx) t ->
  lift ctx = Ok (parse_taxon t) /\
  parse_taxon t = Taxon (slug t) (namespace t) (is_optional t) (tag t).
Proof.
  intros (Hlit & Hun & Hop & Ht).
  rewrite parse_expr_eq. unfold parse_expr_body.
  rewrite Hlit, Hun, Hop, Ht. split; reflexivity.
Qed.

End LifterFacts.

(* ------------------------------------------------------------------ *)
(** ** The theorems at the sample trees *)

Lemma sample_between_is_infix (neg : bool) :
  is_infix (unwrap_expr_parens (Sample.x_between neg)) "BETWEEN".
Proof.
  repeat split. exists "BETWEEN". split; reflexivity.
Defined.

(** [x NOT BETWEEN 1 AND 10] lifts to [OR(<(x,1), >(x,10))]. *)
Lemma parse_expr_between_witness :
  is_infix (unwrap_expr_parens (Sample.x_between true)) "BETWEEN" /\
  parse_expr Sample.int Sample.float (Sample.x_between true) =
    Ok (Expr "OR"
          [Expr "<" [Taxon (Some "x") None false None; Literal (PyInt 1) "1"];
           Expr ">" [Taxon (Some "x") None false None; Literal (PyInt 10) "10"]]).
Proof.
  split; [exact (sample_between_is_infix true)|].
  apply (parse_expr_between Sample.int Sample.float (Sample.x_between true)
           (Sample.name "x")
           (Sample.infix (Sample.number "1") false "AND" (Sample.number "10"))
           (Taxon (Some "x") None false None)
           (Literal (PyInt 1) "1") (Literal (PyInt 10) "10")).
  - exact (sample_between_is_infix true).
  - intros es Hes. discriminate Hes.
  - reflexivity.
  - reflexivity.
  - reflexivity.
  - reflexivity.
Defined.

Lemma sample_between_1_is_infix :
  is_infix (unwrap_expr_parens Sample.x_between_1) "BETWEEN".
Proof.
  repeat split. exists "between". split; reflexivity.
Defined.

Lemma sample_between_1_right (r : ExprContext) (n : Node) :
  right (unwrap_expr_parens Sample.x_between_1) = Some r ->
  parse_expr Sample.int Sample.float r = Ok n -> ~ is_and_pair n.
Proof.
  intros Hr Hn [low [high Hpair]].
  injection Hr as <-. subst n. discriminate Hn.
Defined.

(** [x between 1] does not lift. *)
Lemma parse_expr_between_malformed_witness :
  is_infix (unwrap_expr_parens Sample.x_between_1) "BETWEEN" /\
  exists err,
    parse_expr Sample.int Sample.float Sample.x_between_1 = Err err /\
    (forall l a r n,
        (forall es, right_list (unwrap_expr_parens Sample.x_between_1) = Some es ->
                    is_ok (mapM (parse_expr Sample.int Sample.float) es) = true) ->
        left (unwrap_expr_parens Sample.x_between_1) = Some l ->
        parse_expr Sample.int Sample.float l = Ok a ->
        right (unwrap_expr_parens Sample.x_between_1) = Some r ->
        parse_expr Sample.int Sample.float r = Ok n ->
        err = ParseError (msg_between (Some (text r)))).
Proof.
  split; [exact sample_between_1_is_infix|].
  exact (parse_expr_between_malformed Sample.int Sample.float Sample.x_between_1
           sample_between_1_is_infix sample_between_1_right).
Defined.

(** [(((5)))] lifts as [5]. *)
Lemma parse_expr_parens_witness :
  wraps (Sample.paren (Sample.paren (Sample.paren (Sample.number "5"))))
        (Sample.number "5") /\
  parse_expr Sample.int Sample.float
    (Sample.paren (Sample.paren (Sample.paren (Sample.number "5")))) =
  parse_expr Sample.int Sample.float (Sample.number "5").
Proof.
  assert (H : wraps (Sample.paren (Sample.paren (Sample.paren (Sample.number "5"))))
                    (Sample.number "5")).
  { repeat (eapply wraps_paren; [reflexivity|]). apply wraps_here. }
  split; [exact H|].
  exact (parse_expr_parens Sample.int Sample.float _ _ H).
Defined.

(** [+x] lifts as [x]. *)
Lemma parse_expr_unary_plus_witness :
  is_unary (unwrap_expr_parens (Sample.unary "+" (Sample.name "x"))) "+" /\
  parse_expr Sample.int Sample.float (Sample.unary "+" (Sample.name "x")) =
  parse_expr Sample.int Sample.float (Sample.name "x").
Proof.
  assert (H : is_unary (unwrap_expr_parens (Sample.unary "+" (Sample.name "x"))) "+").
  { split; [reflexivity|]. exists "+". split; reflexivity. }
  split; [exact H|].
  exact (parse_expr_unary_plus Sample.int Sample.float
           (Sample.unary "+" (Sample.name "x")) (Sample.name "x") H eq_refl).
Defined.

Lemma sample_in_is_infix (neg : bool) :
  is_infix (unwrap_expr_parens (Sample.x_in neg)) "IN".
Proof.
  repeat split. exists "IN". split; reflexivity.
Defined.

(** [x NOT IN (1,2,3)] lifts to the NOT of the four-argument IN, and
    [x IN (1,2,3)] renders as [(x IN 1)]. *)
Lemma parse_expr_list_and_render_witness :
  is_infix (unwrap_expr_parens (Sample.x_in true)) "IN" /\
  parse_expr Sample.int Sample.float (Sample.x_in true) =
    Ok (Expr "NOT"
          [Expr "IN" [Taxon (Some "x") None false None; Literal (PyInt 1) "1";
                      Literal (PyInt 2) "2"; Literal (PyInt 3) "3"]]) /\
  (n <- parse_expr Sample.int Sample.float (Sample.x_in false) ;; to_tel n)
    = Ok "(x IN 1)".
Proof.
  destruct (parse_expr_list_and_render Sample.int Sample.float)
    as (Hlift & _ & Hsample).
  split; [exact (sample_in_is_infix true)|]. split.
  - apply (Hlift (Sample.x_in true) (Sample.name "x") "IN"
             [Sample.number "1"; Sample.number "2"; Sample.number "3"]
             (Taxon (Some "x") None false None)
             [Literal (PyInt 1) "1"; Literal (PyInt 2) "2"; Literal (PyInt 3) "3"]).
    + exact (sample_in_is_infix true).
    + discriminate.
    + reflexivity.
    + repeat constructor.
    + reflexivity.
    + reflexivity.
  - exact (proj2 (Hsample eq_refl eq_refl eq_refl)).
Defined.

(** C7, as stated, fails: [x NOT IN (1,2,3)] is an infix node with a
    right-hand list, and its lift is a NOT node around the IN node, not
    the IN node. *)
Lemma parse_expr_negated_list :
  is_infix (unwrap_expr_parens (Sample.x_in true)) "IN" /\
  right_list (unwrap_expr_parens (Sample.x_in true)) =
    Some [Sample.number "1"; Sample.number "2"; Sample.number "3"] /\
  parse_expr Sample.int Sample.float (Sample.x_in true) =
    Ok (Expr "NOT"
          [Expr "IN" [Taxon (Some "x") None false None; Literal (PyInt 1) "1";
                      Literal (PyInt 2) "2"; Literal (PyInt 3) "3"]]) /\
  parse_expr Sample.int Sample.float (Sample.x_in true) <>
    Ok (Expr "IN" [Taxon (Some "x") None false None; Literal (PyInt 1) "1";
                   Literal (PyInt 2) "2"; Literal (PyInt 3) "3"]).
Proof.
  split; [exact (sample_in_is_infix true)|].
  repeat split. discriminate.
Qed.

(** [-5] lifts to a literal that renders as [-5]. *)
Lemma literal_round_trip_witness :
  parse_expr Sample.int Sample.float (Sample.unary "-" (Sample.number "5"))
    = Ok (Literal (PyInt (-5)) "-5") /\
  to_tel (Literal (PyInt (-5)) "-5") = Ok "-5".
Proof.
  split; [reflexivity|].
  exact (proj1 (literal_round_trip Sample.int Sample.float
                  (Sample.unary "-" (Sample.number "5")) (PyInt (-5)) "-5" eq_refl)).
Defined.

Lemma sample_name_is_taxon (s : string) :
  is_taxon (unwrap_expr_parens (Sample.name s)) (Sample.bare s).
Proof. repeat split. Defined.

(** A taxon written with its quotes keeps them. *)
Lemma parse_expr_taxon_witness :
  is_taxon (unwrap_expr_parens (Sample.name Sample.quoted_slug))
           (Sample.bare Sample.quoted_slug) /\
  parse_expr Sample.int Sample.float (Sample.name Sample.quoted_slug) =
    Ok (parse_taxon (Sample.bare Sample.quoted_slug)).
Proof.
  split; [exact (sample_name_is_taxon Sample.quoted_slug)|].
  exact (proj1 (parse_expr_taxon Sample.int Sample.float
                  (Sample.name Sample.quoted_slug) (Sample.bare Sample.quoted_slug)
                  (sample_name_is_taxon Sample.quoted_slug))).
Defined.

(** C9, as stated, fails: the slug written as double quote, a, space, b,
    double quote lifts with its quotes, while [unquote] of that text is
    the three characters between them. *)
Lemma parse_taxon_keeps_quotes :
  parse_expr Sample.int Sample.float (Sample.name Sample.quoted_slug) =
    Ok (Taxon (Some Sample.quoted_slug) None false None) /\
  unquote Sample.quoted_slug = "a b" /\
  parse_expr Sample.int Sample.float (Sample.name Sample.quoted_slug) <>
    Ok (Taxon (option_map unquote (slug (Sample.bare Sample.quoted_slug)))
              (option_map unquote (namespace (Sample.bare Sample.quoted_slug)))
              (is_optional (Sample.bare Sample.quoted_slug))
              (option_map unquote (tag (Sample.bare Sample.quoted_slug)))).
Proof.
  repeat split. vm_compute. discriminate.
Qed.

(* ------------------------------------------------------------------ *)
(** ** Further properties of the lifter and the renderer *)

(** *** Induction over parse trees and over lifted trees *)

(** Structural induction over a parse tree: the property holds of a node
    once it holds of every child the node carries. *)
Section ExprContextInduction.
Variable P : ExprContext -> Prop.
Hypothesis step :
  forall i lv uo r o l rl neg t f txt,
    on_child P i -> on_child P r -> on_child P l ->
    on_children P rl -> on_fn P f ->
    P (mkExprContext i lv uo r o l rl neg t f txt).

Fixpoint ExprContext_induction (e : ExprContext) : P e :=
  let child o : on_child P o :=
    match o return on_child P o with
    | Some x => ExprContext_induction x
    | None => I
    end in
  let children o : on_children P o :=
    match o return on_children P o with
    | Some l =>
        (fix all (l : list ExprContext) : Forall P l :=
           match l return Forall P l with
           | [] => Forall_nil P
           | x :: t => Forall_cons x (ExprContext_induction x) (all t)
           end) l
    | None => I
    end in
  match e return P e with
  | mkExprContext i lv uo r o l rl neg t f txt =>
      step i lv uo r o l rl neg t f txt
        (child i) (child r) (child l) (children rl)
        (match f return on_fn P f with
         | Some (mkFnContext _ a) => children a
         | None => I
         end)
  end.
End ExprContextInduction.

(** Structural induction over a node of the AST, through the argument
    tuples. *)
Section NodeInduction.
Variable P : Node -> Prop.
Hypothesis literal_case : forall v raw, P (Literal v raw).
Hypothesis taxon_case : forall s ns o t, P (Taxon s ns o t).
Hypothesis function_case :
  forall name args,
    match args with Some l => Forall (fun p => P (snd p)) l | None => True end ->
    P (Function name args).
Hypothesis expr_case : forall op args, Forall P args -> P (Expr op args).

Fixpoint Node_induction (n : Node) : P n :=
  match n return P n with
  | Literal v raw => literal_case v raw
  | Taxon s ns o t => taxon_case s ns o t
  | Function name args =>
      function_case name args
        (match args return
               match args with Some l => Forall (fun p => P (snd p)) l | None => True end
         with
         | Some l =>
             (fix all (l : list (option string * Node)) : Forall (fun p => P (snd p)) l :=
                match l return Forall (fun p => P (snd p)) l with
                | [] => Forall_nil _
                | p :: t =>
                    Forall_cons p
                      (match p return P (snd p) with (_, v) => Node_induction v end)
                      (all t)
                end) l
         | None => I
         end)
  | Expr op args =>
      expr_case op args
        ((fix all (l : list Node) : Forall P l :=
            match l return Forall P l with
            | [] => Forall_nil P
            | x :: t => Forall_cons x (Node_induction x) (all t)
            end) args)
  end.
End NodeInduction.

Lemma unwrap_idempotent (e : ExprContext) :
  inner (unwrap_expr_parens e) = None /\
  unwrap_expr_parens (unwrap_expr_parens e) = unwrap_expr_parens e.
Proof.
  induction e as [i lv uo r o l rl neg t f txt Hi _ _ _ _] using ExprContext_induction.
  destruct i as [x|]; simpl in *.
  - exact Hi.
  - split; reflexivity.
Qed.

Lemma upper_char_idempotent (c : ascii) :
  PyStr.upper_char (PyStr.upper_char c) = PyStr.upper_char c.
Proof.
  destruct c as [[] [] [] [] [] [] [] []]; reflexivity.
Qed.

Lemma upper_idempotent (s : string) : PyStr.upper (PyStr.upper s) = PyStr.upper s.
Proof.
  induction s as [|c t IH]; simpl; [reflexivity|].
  now rewrite upper_char_idempotent, IH.
Qed.

Lemma mapM_all {A B : Type} (f : A -> result B) (Q : B -> Prop) (l : list A) (ys : list B) :
  Forall (fun x => forall y, f x = Ok y -> Q y) l ->
  mapM f l = Ok ys -> Forall Q ys.
Proof.
  intros H. revert ys. induction H as [|x l Hx _ IH]; simpl; intros ys Hm.
  - injection Hm as <-. constructor.
  - destruct (f x) as [y|] eqn:Hy; simpl in Hm; [|discriminate].
    destruct (mapM f l) as [zs|]; simpl in Hm; [|discriminate].
    injection Hm as <-. constructor; [now apply Hx | now apply IH].
Qed.

Lemma forallb_Forall {A : Type} (p : A -> bool) (l : list A) :
  Forall (fun x => p x = true) l -> forallb p l = true.
Proof. intros H. apply forallb_forall. now apply Forall_forall. Qed.

Lemma str_app_assoc (a b c : string) : (a ++ b) ++ c = a ++ (b ++ c).
Proof. induction a as [|x a IH]; simpl; [reflexivity|now rewrite IH]. Qed.

Lemma str_app_nil_r (a : string) : a ++ "" = a.
Proof. induction a as [|x a IH]; simpl; [reflexivity|now rewrite IH]. Qed.

Lemma str_app_length (a b : string) :
  String.length (a ++ b) = (String.length a + String.length b)%nat.
Proof. induction a as [|x a IH]; simpl; [reflexivity|now rewrite IH]. Qed.

(** Running the first steps of [parse_expr] on a node of a known shape. *)
Ltac run_unary H :=
  let v := fresh "v" in
  let Hlit := fresh "Hlit" in
  let Hop := fresh "Hop" in
  let Hup := fresh "Hup" in
  destruct H as (Hlit & v & Hop & Hup);
  rewrite parse_expr_eq; unfold parse_expr_body;
  rewrite Hlit, Hop, Hup.

Ltac run_infix H :=
  let v := fresh "v" in
  let Hlit := fresh "Hlit" in
  let Hun := fresh "Hun" in
  let Hop := fresh "Hop" in
  let Hup := fresh "Hup" in
  destruct H as (Hlit & Hun & v & Hop & Hup);
  rewrite parse_expr_eq; unfold parse_expr_body;
  rewrite Hlit, Hun, Hop, Hup.

Lemma upper_empty (s : string) : PyStr.is_empty (PyStr.upper s) = PyStr.is_empty s.
Proof. destruct s; reflexivity. Qed.

(** *** What every lifted tree satisfies *)

Section Invariant.
Variable py_int : string -> option Z.
Variable py_float : string -> option spec_float.
Local Abbreviation lift := (parse_expr py_int py_float).

Lemma lift_unwrap (e : ExprContext) : lift (unwrap_expr_parens e) = lift e.
Proof.
  rewrite (parse_expr_eq _ _ (unwrap_expr_parens e)), (parse_expr_eq _ _ e).
  now rewrite (proj2 (unwrap_idempotent e)).
Qed.

Lemma good_unary (op : string) (n : Node) :
  canonical_tree n -> canonical_tree (Expr (PyStr.upper op) [n]).
Proof.
  unfold canonical_tree. intros H. simpl. rewrite H.
  unfold canonical, upper_case. simpl. rewrite upper_idempotent, String.eqb_refl.
  reflexivity.
Qed.

Lemma good_expr (op : string) (args : list Node) :
  args <> [] -> Forall canonical_tree args -> canonical_tree (Expr (PyStr.upper op) args).
Proof.
  unfold canonical_tree. intros Hne H. simpl.
  rewrite (forallb_Forall _ _ H).
  unfold canonical, upper_case, has_operand. rewrite upper_idempotent, String.eqb_refl.
  destruct args; [contradiction|reflexivity].
Qed.

Lemma unary_expr_good (e : ExprContext) (op : string) (n m : Node) :
  canonical_tree n -> unary_expr e (PyStr.upper op) n = Ok m -> canonical_tree m.
Proof.
  intros Hn. unfold unary_expr.
  destruct (PyStr.upper op =? "+"); [intros [= <-]; exact Hn|].
  destruct n as [v raw| | |]; try (intros [= <-]; now apply good_unary).
  destruct ((PyStr.upper op =? "-") && is_number v).
  - destruct (times_minus_one v); simpl; intros [= <-]; reflexivity.
  - destruct (PyStr.upper op =? "NOT"); intros [= <-]; [reflexivity|].
    now apply good_unary.
Qed.

Lemma between_expr_good (e : ExprContext) (a n m : Node) :
  canonical_tree a -> canonical_tree n -> between_expr e a n = Ok m -> canonical_tree m.
Proof.
  unfold canonical_tree. intros Ha Hn. unfold between_expr.
  destruct n as [| | |o args]; try discriminate.
  destruct args as [|low [|high [|z rest]]]; try discriminate.
  destruct (o =? "AND"); [|discriminate].
  simpl in Hn. apply andb_prop in Hn as [_ Hn].
  apply andb_prop in Hn as [Hlow Hn]. apply andb_prop in Hn as [Hhigh _].
  intros [= <-].
  destruct (is_negated e); simpl; rewrite Ha, Hlow, Hhigh; reflexivity.
Qed.

Lemma call_good (o : option ExprContext) (n : Node) :
  on_child (lifts_canonical py_int py_float) o -> call lift o = Ok n -> canonical_tree n.
Proof.
  destruct o as [x|]; simpl; [|discriminate]. intros [H _]. apply H.
Qed.

Lemma parse_function_argument_pair_eq
    (pe : ExprContext -> result Node) (e0 : ExprContext) :
  parse_function_argument_pair pe e0 =
    (let e := unwrap_expr_parens e0 in
     if match operator e with Some o => o =? "=" | None => false end
     then arg_value <- call pe (right e) ;; Ok (full_text (left e), arg_value)
     else arg_value <- pe e ;; Ok (None, arg_value)).
Proof.
  unfold parse_function_argument_pair. cbv zeta.
  destruct (operator (unwrap_expr_parens e0)) as [o|]; [|reflexivity].
  destruct o as [|c1 [|c2 o']]; [reflexivity| |];
    destruct c1 as [[] [] [] [] [] [] [] []]; reflexivity.
Qed.

Lemma pair_good (e : ExprContext) (p : option string * Node) :
  (lifts_canonical py_int py_float) e -> parse_function_argument_pair lift e = Ok p -> canonical_tree (snd p).
Proof.
  intros [H1 H2]. rewrite parse_function_argument_pair_eq. cbv zeta.
  destruct (match operator (unwrap_expr_parens e) with
            | Some o => o =? "="
            | None => false
            end).
  - destruct (right (unwrap_expr_parens e)) as [r|] eqn:Hr; simpl; [|discriminate].
    destruct (lift r) as [n|] eqn:Hn; simpl; [|discriminate].
    intros [= <-]. simpl. now apply (H2 r n).
  - rewrite lift_unwrap. destruct (lift e) as [n|] eqn:Hn; simpl; [|discriminate].
    intros [= <-]. simpl. now apply H1.
Qed.

Lemma lift_good_all (e : ExprContext) : lifts_canonical py_int py_float e.
Proof.
  induction e as [i lv uo r o l rl neg t f txt Hi Hr Hl Hrl Hf]
    using ExprContext_induction.
  destruct i as [x|].
  { destruct Hi as [H1 H2]. split.
    - intros n. rewrite parse_expr_eq. simpl unwrap_expr_parens.
      rewrite <- parse_expr_eq. apply H1.
    - intros r0 n. simpl unwrap_expr_parens. apply H2. }
  split.
  2:{ intros r0 n. simpl. intros ->. destruct Hr as [H _]. apply H. }
  intros n. rewrite parse_expr_eq. simpl unwrap_expr_parens.
  unfold parse_expr_body. simpl literalValue. simpl unary_operator.
  simpl operator. simpl right. simpl left. simpl right_list. simpl taxon. simpl fn.
  simpl is_negated.
  destruct lv as [v|].
  { unfold parse_literal. destruct (parse_literal_value _ _ v); simpl; [|discriminate].
    intros [= <-]. reflexivity. }
  destruct uo as [v|].
  { destruct (call lift r) as [right'|] eqn:Hc; simpl; [|discriminate].
    apply unary_expr_good. now apply (call_good r). }
  destruct (if_text o) as [v|].
  { set (rights := match rl with
                   | Some l0 => mapM lift l0
                   | None => r0 <- call lift r ;; Ok [r0]
                   end).
    assert (Hrights : forall rs, rights = Ok rs -> Forall canonical_tree rs).
    { subst rights. destruct rl as [es|].
      - intros rs. apply mapM_all. simpl in Hrl.
        eapply Forall_impl; [|exact Hrl]. intros a [Ha _]. exact Ha.
      - intros rs. destruct (call lift r) as [r0|] eqn:Hc; simpl; [|discriminate].
        intros [= <-]. constructor; [|constructor]. now apply (call_good r). }
    destruct rights as [rs|]; simpl; [|discriminate].
    specialize (Hrights rs eq_refl).
    destruct (PyStr.upper v =? "BETWEEN").
    - destruct (call lift l) as [left'|] eqn:Hcl; simpl; [|discriminate].
      destruct (call lift r) as [ba|] eqn:Hcr; simpl; [|discriminate].
      apply between_expr_good; [now apply (call_good l) | now apply (call_good r)].
    - destruct (call lift l) as [left'|] eqn:Hcl; simpl; [|discriminate].
      assert (Hex : canonical_tree (Expr (PyStr.upper v) (left' :: rs))).
      { apply good_expr; [discriminate|]. constructor; [|exact Hrights].
        now apply (call_good l). }
      destruct neg; intros [= <-]; [|exact Hex].
      unfold canonical_tree in *. simpl. simpl in Hex. rewrite Hex. reflexivity. }
  destruct t as [v|]; [intros [= <-]; reflexivity|].
  destruct f as [fc|]; [|discriminate].
  unfold parse_function. destruct fc as [name a]. simpl arguments. simpl function_name.
  destruct a as [es|]; [|intros [= <-]; reflexivity].
  destruct (mapM (parse_function_argument_pair lift) es) as [args|] eqn:Hm; simpl; [|discriminate].
  intros [= <-]. unfold canonical_tree. simpl.
  apply forallb_Forall.
  apply (mapM_all (parse_function_argument_pair lift) (fun p => every_expr canonical (snd p) = true) es);
    [|exact Hm].
  simpl in Hf. eapply Forall_impl; [|exact Hf].
  intros a Ha p. now apply pair_good.
Qed.

End Invariant.



Lemma every_expr_weaken (q q' : string -> list Node -> bool) (n : Node) :
  (forall op args, q op args = true -> q' op args = true) ->
  every_expr q n = true -> every_expr q' n = true.
Proof.
  intros Hq.
  induction n as [v raw|s ns o t|name args IH|op args IH] using Node_induction;
    simpl; intros H; try reflexivity.
  - destruct args as [l|]; [|reflexivity].
    rewrite forallb_forall in H |- *. rewrite Forall_forall in IH.
    intros p Hin. apply (IH p Hin), H, Hin.
  - apply andb_prop in H as [H1 H2]. rewrite (Hq _ _ H1). simpl.
    rewrite forallb_forall in H2 |- *. rewrite Forall_forall in IH.
    intros p Hin. apply (IH p Hin), H2, Hin.
Qed.

Lemma mapM_first_error {A B : Type} (f : A -> result B)
    (pre : list A) (x : A) (post : list A) (err : exn) :
  Forall (fun y => is_ok (f y) = true) pre -> f x = Err err ->
  mapM f (pre ++ x :: post)%list = Err err.
Proof.
  intros Hpre Hx. induction Hpre as [|y pre Hy _ IH]; simpl.
  - now rewrite Hx.
  - destruct (f y); [|discriminate Hy]. simpl. now rewrite IH.
Qed.

Lemma mapM_Forall2_gen {A B : Type} (f : A -> result B) (l : list A) (ys : list B) :
  Forall2 (fun x y => f x = Ok y) l ys -> mapM f l = Ok ys.
Proof.
  induction 1 as [|x y l ys Hx _ IH]; simpl; [reflexivity|].
  now rewrite Hx, IH.
Qed.

(** *** Indexing and slicing a wrapped text *)

Lemma get_last (m : string) (c : ascii) :
  String.get (String.length m) (m ++ PyStr.chr c) = Some c.
Proof. induction m as [|x m IH]; simpl; [reflexivity|exact IH]. Qed.

Lemma substring_prefix (m t : string) :
  String.substring 0 (String.length m) (m ++ t) = m.
Proof.
  induction m as [|x m IH]; simpl.
  - destruct t; reflexivity.
  - now rewrite IH.
Qed.

Lemma index_first (c : ascii) (t : string) : PyStr.index (String c t) 0 = Some c.
Proof.
  unfold PyStr.index. change (0 <? 0)%Z with false. cbv iota.
  replace ((0 <=? 0)%Z && (0 <? Z.of_nat (String.length (String c t)))%Z) with true.
  - reflexivity.
  - symmetry. apply andb_true_intro. split; [reflexivity|].
    apply Z.ltb_lt. simpl String.length. lia.
Qed.

Lemma index_last (t : string) (c : ascii) :
  PyStr.index (t ++ PyStr.chr c) (-1) = Some c.
Proof.
  unfold PyStr.index. rewrite str_app_length.
  change (String.length (PyStr.chr c)) with 1%nat.
  change (-1 <? 0)%Z with true. cbv iota.
  replace (-1 + Z.of_nat (String.length t + 1))%Z with (Z.of_nat (String.length t)) by lia.
  replace ((0 <=? Z.of_nat (String.length t))%Z &&
           (Z.of_nat (String.length t) <? Z.of_nat (String.length t + 1))%Z) with true.
  - rewrite Nat2Z.id. apply get_last.
  - symmetry. apply andb_true_intro. split; [apply Z.leb_le|apply Z.ltb_lt]; lia.
Qed.

Lemma slice_inner (a b : ascii) (m : string) :
  PyStr.slice (String a (m ++ PyStr.chr b)) 1 (-1) = m.
Proof.
  unfold PyStr.slice. simpl String.length. rewrite str_app_length. simpl String.length.
  change (1 <? 0)%Z with false. change (-1 <? 0)%Z with true. cbv iota.
  set (n := String.length m).
  replace (Z.min (Z.of_nat (S (n + 1))) (Z.max 0 1)) with 1%Z by lia.
  replace (Z.min (Z.of_nat (S (n + 1))) (Z.max 0 (-1 + Z.of_nat (S (n + 1)))) - 1)%Z
    with (Z.of_nat n) by lia.
  rewrite Nat2Z.id. change (Z.to_nat 1) with 1%nat. simpl String.substring.
  apply substring_prefix.
Qed.

Lemma unquote_strip (q : ascii) (m : string) :
  q = PyStr.dquote \/ q = PyStr.squote ->
  unquote (String q (m ++ PyStr.chr q)) = unescape m.
Proof.
  intros Hq. unfold unquote, unescape. cbn [PyStr.is_empty].
  rewrite index_first,
    (index_last (String q m) q
      : PyStr.index (String q (m ++ PyStr.chr q)) (-1) = Some q).
  rewrite slice_inner.
  destruct Hq as [-> | ->]; reflexivity.
Qed.

(** X1. On a text that starts and ends with the same quote character,
    double or single, around any content [m], [unquote] strips that one
    pair and returns [m] with its escaped quotes replaced; quotes inside
    [m], doubled or not, stay. *)
Theorem unquote_wrapped (q : ascii) (m : string) :
  q = PyStr.dquote \/ q = PyStr.squote ->
  unquote (String q (m ++ PyStr.chr q)) = unescape m.
Proof. exact (unquote_strip q m). Qed.

Lemma startswith_length (p s : string) :
  PyStr.startswith p s = true -> (String.length p <= String.length s)%nat.
Proof.
  revert s. induction p as [|a p IH]; intros s H; simpl; [lia|].
  destruct s as [|b s]; simpl in H; [discriminate|].
  apply andb_prop in H as [_ H]. apply IH in H. simpl. lia.
Qed.

Lemma replace_from_length (old new : string) (k : nat) (s : string) :
  (String.length new <= String.length old)%nat ->
  (String.length (PyStr.replace_from old new k s) <= String.length s - k)%nat.
Proof.
  intros Hlen. revert k. induction s as [|c t IH]; intros k; simpl; [lia|].
  destruct k as [|k].
  - destruct (PyStr.startswith old (String c t)) eqn:E.
    + apply startswith_length in E. simpl in E.
      rewrite str_app_length. specialize (IH (String.length old - 1)%nat). lia.
    + simpl. specialize (IH 0%nat). lia.
  - apply IH.
Qed.

Lemma replace_length (old new s : string) :
  PyStr.is_empty old = false ->
  (String.length new <= String.length old)%nat ->
  (String.length (PyStr.replace old new s) <= String.length s)%nat.
Proof.
  intros Hne Hlen. unfold PyStr.replace. rewrite Hne.
  pose proof (replace_from_length old new 0 s Hlen). lia.
Qed.

Lemma substring_length (a b : nat) (s : string) :
  (String.length (String.substring a b s) <= String.length s)%nat.
Proof.
  revert a b. induction s as [|c t IH]; intros a b.
  - destruct a, b; simpl; lia.
  - destruct a as [|a].
    + destruct b as [|b]; simpl; [lia|]. specialize (IH 0%nat b). lia.
    + simpl. specialize (IH a b). lia.
Qed.

Lemma unescape_length (s : string) :
  (String.length (unescape s) <= String.length s)%nat.
Proof.
  unfold unescape. etransitivity; [apply replace_length; [reflexivity|simpl; lia]|].
  apply replace_length; [reflexivity|simpl; lia].
Qed.

(** X2. [unquote] never returns a text longer than its argument. *)
Theorem unquote_never_longer (s : string) :
  (String.length (unquote s) <= String.length s)%nat.
Proof.
  unfold unquote. destruct (PyStr.is_empty s); [lia|].
  destruct (wrapper_is _ PyStr.dquote || wrapper_is _ PyStr.squote).
  - etransitivity; [apply (unescape_length (PyStr.slice s 1 (-1)))|].
    apply substring_length.
  - apply (unescape_length s).
Qed.

(** *** Invariants of the lifter *)

Section LiftedTrees.
Variable py_int : string -> option Z.
Variable py_float : string -> option spec_float.
Local Abbreviation lift := (parse_expr py_int py_float).

(** X3. In a tree the lifter returns, every [Expr] node, at any depth,
    has an operator that [upper] leaves as it is: operators are stored
    upper-cased, those the lifter writes itself included. *)
Theorem lifted_operators_upper_case (ctx : ExprContext) (n : Node) :
  lift ctx = Ok n -> every_expr upper_case n = true.
Proof.
  intros H. apply (every_expr_weaken canonical).
  - intros op args Hc. unfold canonical in Hc. now apply andb_prop in Hc as [_ Hc].
  - exact (proj1 (lift_good_all py_int py_float ctx) n H).
Qed.


End LiftedTrees.

(** *** The rules of [parse_expr], node by node *)

Section LifterRules.
Variable py_int : string -> option Z.
Variable py_float : string -> option spec_float.
Local Abbreviation lift := (parse_expr py_int py_float).

(** X5. [unwrap_expr_parens] returns the innermost node of a tower of
    paren wrappers: the result has no [inner], unwrapping it again changes
    nothing, the argument is the result inside some wrappers, and both
    lift alike. *)
Theorem unwrap_expr_parens_innermost (e : ExprContext) :
  inner (unwrap_expr_parens e) = None /\
  unwrap_expr_parens (unwrap_expr_parens e) = unwrap_expr_parens e /\
  wraps e (unwrap_expr_parens e) /\
  lift (unwrap_expr_parens e) = lift e.
Proof.
  destruct (unwrap_idempotent e) as [H1 H2].
  repeat split; try assumption.
  - induction e as [i lv uo r o l rl neg t f txt Hi _ _ _ _] using ExprContext_induction.
    destruct i as [x|]; simpl in *.
    + apply (wraps_paren _ x); [reflexivity|]. apply Hi; apply unwrap_idempotent.
    + apply wraps_here.
  - apply lift_unwrap.
Qed.

(** X6. Unary NOT over an operand that lifts to a literal is folded:
    the result is the boolean literal of the negated truth value of the
    operand's value, written [true] or [false], whatever the raw text of
    the operand. *)
Theorem parse_expr_not_literal (ctx x : ExprContext) (v : PyValue) (raw : string) :
  is_unary (unwrap_expr_parens ctx) "NOT" ->
  right (unwrap_expr_parens ctx) = Some x ->
  lift x = Ok (Literal v raw) ->
  lift ctx =
    Ok (if truthy v then Literal (PyBool false) "false"
        else Literal (PyBool true) "true").
Proof.
  intros H Hx Hv. run_unary H. rewrite Hx. simpl call. rewrite Hv.
  unfold unary_expr. simpl.
  destruct (truthy v); reflexivity.
Qed.

(** X7. Unary minus over an operand that lifts to an integer literal is
    folded into the literal of the negated integer, whose raw text is the
    source text of the whole unary node (parens around the node dropped). *)
Theorem parse_expr_minus_int (ctx x : ExprContext) (z : Z) (raw : string) :
  is_unary (unwrap_expr_parens ctx) "-" ->
  right (unwrap_expr_parens ctx) = Some x ->
  lift x = Ok (Literal (PyInt z) raw) ->
  lift ctx = Ok (Literal (PyInt (- z)) (text (unwrap_expr_parens ctx))).
Proof.
  intros H Hx Hv. run_unary H. rewrite Hx. simpl call. rewrite Hv.
  unfold unary_expr. simpl.
  now replace (z * -1)%Z with (- z)%Z by lia.
Qed.

(** X8. Two unary minus signs over an integer literal fold twice: the
    value is the integer of the operand again, and the raw text is the
    source text of the outer node. *)
Theorem parse_expr_minus_minus (ctx x y : ExprContext) (z : Z) (raw : string) :
  is_unary (unwrap_expr_parens ctx) "-" ->
  right (unwrap_expr_parens ctx) = Some x ->
  is_unary (unwrap_expr_parens x) "-" ->
  right (unwrap_expr_parens x) = Some y ->
  lift y = Ok (Literal (PyInt z) raw) ->
  lift ctx = Ok (Literal (PyInt z) (text (unwrap_expr_parens ctx))).
Proof.
  intros H Hx H' Hy Hv.
  assert (Hin : lift x = Ok (Literal (PyInt (- z)) (text (unwrap_expr_parens x)))).
  { run_unary H'. rewrite Hy. simpl call. rewrite Hv.
    unfold unary_expr. simpl.
    now replace (z * -1)%Z with (- z)%Z by lia. }
  run_unary H. rewrite Hx. simpl call. rewrite Hin.
  unfold unary_expr. simpl.
  now replace (- z * -1)%Z with z by lia.
Qed.

(** X9. A node with a literal child lifts by the literal rule alone,
    whatever other labels it carries. The lift fails exactly for a numeric
    token (not flagged null, true or false) whose text neither [int] nor
    [float] reads, with the [ParseError] on the SQL number; in every other
    case it is a literal whose raw text is the text of the literal child. *)
Theorem parse_expr_literal (ctx : ExprContext) (v : LiteralValueContext) :
  literalValue (unwrap_expr_parens ctx) = Some v ->
  (K_NULL v = false /\ K_TRUE v = false /\ K_FALSE v = false /\
   NUMERIC_LITERAL v = true /\
   py_int (lv_text v) = None /\ py_float (lv_text v) = None ->
   lift ctx = Err (ParseError (msg_number (lv_text v)))) /\
  (~ (K_NULL v = false /\ K_TRUE v = false /\ K_FALSE v = false /\
      NUMERIC_LITERAL v = true /\
      py_int (lv_text v) = None /\ py_float (lv_text v) = None) ->
   exists value, lift ctx = Ok (Literal value (lv_text v))).
Proof.
  intros Hlit. rewrite parse_expr_eq. unfold parse_expr_body. rewrite Hlit.
  unfold parse_literal, parse_literal_value. split.
  - intros (-> & -> & -> & -> & -> & ->). reflexivity.
  - intros Hno.
    destruct (K_NULL v); [now eexists|].
    destruct (K_TRUE v); [now eexists|].
    destruct (K_FALSE v); [now eexists|]. simpl.
    destruct (NUMERIC_LITERAL v).
    + destruct (py_int (lv_text v)); [now eexists|].
      destruct (py_float (lv_text v)); [now eexists|].
      exfalso. apply Hno. repeat split.
    + destruct (DOUBLE_QUOTED_STRING v || SINGLE_QUOTED_STRING v); now eexists.
Qed.

(** X10. A node with no literal, no unary operator, no operator text, no
    taxon and no function does not lift: the error is the [ParseError]
    that quotes the source text of the node. *)
Theorem parse_expr_unsupported (ctx : ExprContext) :
  let e := unwrap_expr_parens ctx in
  literalValue e = None -> unary_operator e = None ->
  if_text (operator e) = None -> taxon e = None -> fn e = None ->
  lift ctx = Err (ParseError (msg_unsupported (text e))).
Proof.
  intros e H1 H2 H3 H4 H5. subst e. rewrite parse_expr_eq. unfold parse_expr_body.
  now rewrite H1, H2, H3, H4, H5.
Qed.

End LifterRules.

(** *** Equal lifts, and lifting followed by rendering *)

Section LifterEquations.
Variable py_int : string -> option Z.
Variable py_float : string -> option spec_float.
Local Abbreviation lift := (parse_expr py_int py_float).

(** X11. For an infix operator other than BETWEEN, the negated form
    [l NOT op r] lifts exactly as the unary [NOT (l op r)] does, result or
    error: [p] is the node [n] with its negation flag cleared, and [u] a
    unary NOT node over [p]. *)
Theorem parse_expr_negated_as_not (n p u : ExprContext) (op : string) :
  let n' := unwrap_expr_parens n in
  let p' := unwrap_expr_parens p in
  is_infix n' op -> op <> "BETWEEN" ->
  literalValue p' = literalValue n' -> unary_operator p' = unary_operator n' ->
  operator p' = operator n' -> left p' = left n' -> right p' = right n' ->
  right_list p' = right_list n' ->
  is_negated n' = true -> is_negated p' = false ->
  is_unary (unwrap_expr_parens u) "NOT" ->
  right (unwrap_expr_parens u) = Some p ->
  lift u = lift n.
Proof.
  intros n' p' Hn Hop E1 E2 E3 E4 E5 E6 Hneg Hpos Hu Hr. subst n' p'.
  assert (Hp : is_infix (unwrap_expr_parens p) op).
  { destruct Hn as (H1 & H2 & v & H3 & H4). unfold is_infix.
    rewrite E1, E2, E3. repeat split; try assumption. now exists v. }
  apply String.eqb_neq in Hop.
  assert (Hlp : lift p =
    (right' <- match right_list (unwrap_expr_parens n) with
               | Some l => mapM lift l
               | None => r <- call lift (right (unwrap_expr_parens n)) ;; Ok [r]
               end ;;
     left' <- call lift (left (unwrap_expr_parens n)) ;;
     Ok (Expr op (left' :: right')))).
  { run_infix Hp. rewrite E4, E5, E6, Hop, Hpos. reflexivity. }
  run_unary Hu. rewrite Hr. simpl call. rewrite Hlp.
  run_infix Hn. rewrite Hop, Hneg.
  destruct (match right_list (unwrap_expr_parens n) with
            | Some l => mapM lift l
            | None => r <- call lift (right (unwrap_expr_parens n)) ;; Ok [r]
            end) as [rs|]; simpl; [|reflexivity].
  destruct (call lift (left (unwrap_expr_parens n))); reflexivity.
Qed.

(** X12. The lifter reads operators without regard to case: two nodes
    that differ only in an operator text, infix or unary, whose two
    spellings upper-case alike, lift alike. *)
Theorem parse_expr_operator_case
    (lv : option LiteralValueContext) (uo : option string)
    (r l : option ExprContext) (rl : option (list ExprContext)) (neg : bool)
    (t : option TaxonContext) (f : option FnContext) (txt v1 v2 : string) :
  PyStr.upper v1 = PyStr.upper v2 ->
  lift (mkExprContext None lv uo r (Some v1) l rl neg t f txt) =
  lift (mkExprContext None lv uo r (Some v2) l rl neg t f txt) /\
  lift (mkExprContext None lv (Some v1) r uo l rl neg t f txt) =
  lift (mkExprContext None lv (Some v2) r uo l rl neg t f txt).
Proof.
  intros Hup. rewrite !parse_expr_eq. simpl unwrap_expr_parens.
  assert (He : PyStr.is_empty v1 = PyStr.is_empty v2).
  { now rewrite <- (upper_empty v1), Hup, upper_empty. }
  split.
  - unfold parse_expr_body. cbn [literalValue unary_operator operator].
    destruct lv; [reflexivity|]. destruct uo; [reflexivity|].
    unfold if_text. rewrite He. destruct (PyStr.is_empty v2); [reflexivity|].
    rewrite Hup. reflexivity.
  - unfold parse_expr_body. cbn [literalValue unary_operator].
    destruct lv; [reflexivity|]. rewrite Hup. reflexivity.
Qed.

Lemma argument_pair_rules (w e : ExprContext) :
  wraps w e ->
  (forall r n,
      operator (unwrap_expr_parens e) = Some "=" ->
      right (unwrap_expr_parens e) = Some r -> lift r = Ok n ->
      parse_function_argument_pair lift w =
        Ok (full_text (left (unwrap_expr_parens e)), n)) /\
  (forall n,
      operator (unwrap_expr_parens e) <> Some "=" ->
      lift e = Ok n ->
      parse_function_argument_pair lift w = Ok (None, n)).
Proof.
  intros Hw. rewrite !parse_function_argument_pair_eq. cbv zeta.
  rewrite (unwrap_wraps _ _ Hw). split.
  - intros r n -> Hr Hn. simpl. rewrite Hr. simpl. now rewrite Hn.
  - intros n Hop Hn.
    destruct (operator (unwrap_expr_parens e)) as [o|] eqn:Ho.
    + destruct (String.eqb_spec o "=") as [->|_]; [contradiction Hop; reflexivity|].
      replace (parse_expr py_int py_float (unwrap_expr_parens e)) with (lift e)
        by (symmetry; apply lift_unwrap).
      now rewrite Hn.
    + replace (parse_expr py_int py_float (unwrap_expr_parens e)) with (lift e)
        by (symmetry; apply lift_unwrap).
      now rewrite Hn.
Qed.

(** X13. A function argument, inside any number of parens: when its
    operator text is exactly [=], it is a named argument, the name being
    the source text of the left side, which is not lifted, and the value
    the lift of the right side; otherwise it is a positional argument, the
    lift of the whole expression with no name. *)
Theorem parse_function_argument_pair_rule (w e : ExprContext) :
  wraps w e ->
  (forall r n,
      operator (unwrap_expr_parens e) = Some "=" ->
      right (unwrap_expr_parens e) = Some r -> lift r = Ok n ->
      parse_function_argument_pair lift w =
        Ok (full_text (left (unwrap_expr_parens e)), n)) /\
  (forall n,
      operator (unwrap_expr_parens e) <> Some "=" ->
      lift e = Ok n ->
      parse_function_argument_pair lift w = Ok (None, n)).
Proof. exact (argument_pair_rules w e). Qed.

(** X14. Lifting a BETWEEN node and rendering the result: with [ra],
    [rb], [rc] the renderings of the left side and of the two bounds, the
    text is [((ra >= rb) AND (ra <= rc))], and [((ra < rb) OR (ra > rc))]
    for the negated form. *)
Theorem between_renders (ctx l r : ExprContext) (a b c : Node) (ra rb rc : string) :
  let e := unwrap_expr_parens ctx in
  is_infix e "BETWEEN" -> right_list e = None ->
  left e = Some l -> lift l = Ok a ->
  right e = Some r -> lift r = Ok (Expr "AND" [b; c]) ->
  to_tel a = Ok ra -> to_tel b = Ok rb -> to_tel c = Ok rc ->
  (n <- lift ctx ;; to_tel n) =
    Ok (if is_negated e
        then "((" ++ ra ++ " < " ++ rb ++ ") OR (" ++ ra ++ " > " ++ rc ++ "))"
        else "((" ++ ra ++ " >= " ++ rb ++ ") AND (" ++ ra ++ " <= " ++ rc ++ "))").
Proof.
  intros e H Hrl Hl Ha Hr Hbc Hra Hrb Hrc. subst e. run_infix H.
  rewrite Hrl, Hl, Hr. simpl call. rewrite Ha, Hbc. unfold to_tel in *.
  simpl. unfold between_negated, between_plain.
  destruct (is_negated (unwrap_expr_parens ctx)); simpl; unfold Expr_str; simpl;
    unfold Expr_str; simpl; rewrite Hra, Hrb, Hrc; simpl;
    repeat (rewrite str_app_assoc; simpl); reflexivity.
Qed.

End LifterEquations.

Section LifterMore.
Variable py_int : string -> option Z.
Variable py_float : string -> option spec_float.
Local Abbreviation lift := (parse_expr py_int py_float).

(** X15. In an infix node with a right-hand list, the elements are
    lifted in order before the left side is looked at: when an element
    fails after elements that lift, the node fails with that element's
    error, whatever the operator, the left side and the negation flag. *)
Theorem parse_expr_list_first_error
    (ctx x : ExprContext) (op : string) (pre post : list ExprContext) (err : exn) :
  let e := unwrap_expr_parens ctx in
  is_infix e op ->
  right_list e = Some (pre ++ x :: post)%list ->
  Forall (fun y => is_ok (lift y) = true) pre ->
  lift x = Err err ->
  lift ctx = Err err.
Proof.
  intros e H Hrl Hpre Hx. subst e. run_infix H. rewrite Hrl.
  now rewrite (mapM_first_error lift pre x post err Hpre Hx).
Qed.

(** X16. A unary node with an operator other than [+], over an operand
    that lifts to a node that is no literal, lifts to the one-argument
    [Expr] of the upper-cased operator; it renders as the operator
    followed by the rendering of the operand, with no space in between
    for [-] and one space for any other operator. *)
Theorem unary_renders (ctx x : ExprContext) (op : string) (n : Node) (rn : string) :
  is_unary (unwrap_expr_parens ctx) op -> op <> "+" ->
  right (unwrap_expr_parens ctx) = Some x ->
  lift x = Ok n -> (forall v raw, n <> Literal v raw) ->
  to_tel n = Ok rn ->
  lift ctx = Ok (Expr op [n]) /\
  (m <- lift ctx ;; to_tel m) = Ok (op ++ (if op =? "-" then "" else " ") ++ rn).
Proof.
  intros H Hop Hx Hn Hlit Hrn.
  assert (Hl : lift ctx = Ok (Expr op [n])).
  { run_unary H. rewrite Hx. simpl call. rewrite Hn. simpl bind.
    unfold unary_expr. apply String.eqb_neq in Hop. rewrite Hop.
    destruct n as [value raw| | |]; try reflexivity.
    now contradiction (Hlit value raw). }
  split; [exact Hl|]. rewrite Hl. simpl bind. unfold to_tel in *. simpl.
  unfold Expr_str. simpl. rewrite Hrn. simpl.
  apply String.eqb_neq in Hop. rewrite Hop. reflexivity.
Qed.

(** X17. A quoted string token whose text is a content [m] between two
    equal quote characters lifts to a literal whose value is [m] with its
    escaped quotes replaced, and whose raw text is the token as written,
    quotes included. *)
Theorem parse_expr_string_literal
    (ctx : ExprContext) (v : LiteralValueContext) (q : ascii) (m : string) :
  literalValue (unwrap_expr_parens ctx) = Some v ->
  K_NULL v = false -> K_TRUE v = false -> K_FALSE v = false ->
  NUMERIC_LITERAL v = false ->
  DOUBLE_QUOTED_STRING v || SINGLE_QUOTED_STRING v = true ->
  q = PyStr.dquote \/ q = PyStr.squote ->
  lv_text v = String q (m ++ PyStr.chr q) ->
  lift ctx = Ok (Literal (PyText (unescape m)) (String q (m ++ PyStr.chr q))).
Proof.
  intros Hlit H1 H2 H3 H4 H5 Hq Ht.
  rewrite parse_expr_eq. unfold parse_expr_body. rewrite Hlit.
  unfold parse_literal, parse_literal_value. rewrite H1, H2, H3, H4, H5, Ht.
  simpl. now rewrite (unquote_strip q m Hq).
Qed.

(** X18. An infix node whose right-hand list is empty, not negated and
    with an operator other than BETWEEN, lifts to an [Expr] with the left
    side as its only argument, which the renderer writes in the unary
    form: the operator before the operand. *)
Theorem parse_expr_empty_list (ctx l : ExprContext) (op : string) (a : Node) (ra : string) :
  let e := unwrap_expr_parens ctx in
  is_infix e op -> op <> "BETWEEN" ->
  right_list e = Some [] -> is_negated e = false ->
  left e = Some l -> lift l = Ok a -> to_tel a = Ok ra ->
  lift ctx = Ok (Expr op [a]) /\
  (m <- lift ctx ;; to_tel m) =
    Ok (op ++ (if (op =? "+") || (op =? "-") then "" else " ") ++ ra).
Proof.
  intros e H Hop Hrl Hneg Hl Ha Hra. subst e.
  assert (Hlift : lift ctx = Ok (Expr op [a])).
  { run_infix H. rewrite Hrl, Hl, Hneg. simpl. rewrite Ha. simpl.
    apply String.eqb_neq in Hop. now rewrite Hop. }
  split; [exact Hlift|]. rewrite Hlift. simpl bind. unfold to_tel in *. simpl.
  unfold Expr_str. simpl. now rewrite Hra.
Qed.

(** X19. A function call whose arguments are all positional lifts to a
    [Function] node holding the lifts of the arguments in call-site order,
    each with no name, and renders as the name, an opening paren, the
    renderings of the arguments joined by commas, and a closing paren. *)
Theorem function_call_renders
    (ctx : ExprContext) (fc : FnContext) (name : string)
    (es : list ExprContext) (ns : list Node) (rs : list string) :
  is_function (unwrap_expr_parens ctx) fc ->
  function_name fc = Some name ->
  arguments fc = Some es ->
  Forall2 (fun e n => operator (unwrap_expr_parens e) <> Some "=" /\ lift e = Ok n) es ns ->
  Forall2 (fun n r => to_tel n = Ok r) ns rs ->
  lift ctx = Ok (Function (Some name) (Some (map (fun n => (None, n)) ns))) /\
  (m <- lift ctx ;; to_tel m) = Ok (name ++ "(" ++ PyStr.join "," rs ++ ")").
Proof.
  intros (H1 & H2 & H3 & H4 & H5) Hname Hargs Hes Hns.
  assert (Hl : lift ctx = Ok (Function (Some name) (Some (map (fun n => (None, n)) ns)))).
  { rewrite parse_expr_eq. unfold parse_expr_body. rewrite H1, H2, H3, H4, H5.
    unfold parse_function. rewrite Hargs, Hname.
    rewrite (mapM_Forall2_gen _ es (map (fun n => (None, n)) ns)); [reflexivity|].
    clear -Hes. induction Hes as [|e n es ns [Hop Hn] _ IH]; simpl; constructor; [|exact IH].
    apply (argument_pair_rules py_int py_float e e (wraps_here e)); assumption. }
  split; [exact Hl|]. rewrite Hl. simpl bind. unfold to_tel in *. simpl.
  unfold Function_str.
  rewrite (mapM_Forall2_gen _ (map (fun n => (None, n)) ns) rs); [reflexivity|].
  clear -Hns. induction Hns as [|n r ns rs Hn _ IH]; simpl; constructor; [|exact IH].
  unfold Function_arg. now rewrite Hn.
Qed.

(** X20. A taxon node with a slug lifts to a taxon that renders as the
    optional marker [?] when set, the namespace followed by a bar when
    there is a non-empty one, the slug, and a colon followed by the tag
    when there is a non-empty one. *)
Theorem taxon_renders (ctx : ExprContext) (t : TaxonContext) (s : string) :
  is_taxon (unwrap_expr_parens ctx) t ->
  slug t = Some s ->
  (m <- lift ctx ;; to_tel m) =
    Ok ((if is_optional t then "?" else "")
        ++ segment "" (namespace t) "|" ++ s ++ segment ":" (tag t) "").
Proof.
  intros (Hlit & Hun & Hop & Ht) Hs.
  rewrite parse_expr_eq. unfold parse_expr_body.
  rewrite Hlit, Hun, Hop, Ht. simpl bind. unfold to_tel, parse_taxon. simpl.
  unfold Taxon_str, segment, if_text. rewrite Hs. simpl.
  destruct (namespace t) as [ns|], (tag t) as [tg|];
    try destruct (PyStr.is_empty ns); try destruct (PyStr.is_empty tg);
    rewrite ?str_app_nil_r; reflexivity.
Qed.

End LifterMore.

(* ------------------------------------------------------------------ *)
(** ** The further properties at sample trees *)


Lemma lifted_operators_upper_case_witness :
  parse_expr Sample.int Sample.float (Sample.x_between true) = Ok Probe.x_outside /\
  every_expr upper_case Probe.x_outside = true.
Proof.
  split; [reflexivity|].
  exact (lifted_operators_upper_case Sample.int Sample.float (Sample.x_between true)
           Probe.x_outside eq_refl).
Defined.

Lemma parse_expr_negated_as_not_witness :
  is_infix (unwrap_expr_parens (Sample.x_in true)) "IN" /\
  is_unary (unwrap_expr_parens (Sample.unary "not" (Sample.x_in false))) "NOT" /\
  parse_expr Sample.int Sample.float (Sample.unary "not" (Sample.x_in false)) =
  parse_expr Sample.int Sample.float (Sample.x_in true).
Proof.
  assert (Hn : is_infix (unwrap_expr_parens (Sample.x_in true)) "IN").
  { repeat split. exists "IN". split; reflexivity. }
  assert (Hu : is_unary (unwrap_expr_parens (Sample.unary "not" (Sample.x_in false))) "NOT").
  { split; [reflexivity|]. exists "not". split; reflexivity. }
  split; [exact Hn|]. split; [exact Hu|].
  apply (parse_expr_negated_as_not Sample.int Sample.float
           (Sample.x_in true) (Sample.x_in false)
           (Sample.unary "not" (Sample.x_in false)) "IN" Hn);
    try reflexivity; try exact Hu.
  discriminate.
Defined.

Lemma parse_expr_operator_case_witness :
  PyStr.upper "and" = PyStr.upper "AND" /\
  parse_expr Sample.int Sample.float
    (Sample.infix (Sample.name "x") false "and" (Sample.name "y")) =
  parse_expr Sample.int Sample.float
    (Sample.infix (Sample.name "x") false "AND" (Sample.name "y")).
Proof.
  split; [reflexivity|].
  exact (proj1 (parse_expr_operator_case Sample.int Sample.float
                  None None (Some (Sample.name "y")) (Some (Sample.name "x"))
                  None false None None "x and y" "and" "AND" eq_refl)).
Defined.

Lemma sample_unary_is_unary (op : string) (e : ExprContext) :
  is_unary (unwrap_expr_parens (Sample.unary op e)) (PyStr.upper op).
Proof. split; [reflexivity|]. exists op. split; reflexivity. Defined.

Lemma parse_expr_not_literal_witness :
  is_unary (unwrap_expr_parens (Sample.unary "not" (Sample.number "0"))) "NOT" /\
  parse_expr Sample.int Sample.float (Sample.unary "not" (Sample.number "0")) =
    Ok (Literal (PyBool true) "true").
Proof.
  split; [exact (sample_unary_is_unary "not" (Sample.number "0"))|].
  exact (parse_expr_not_literal Sample.int Sample.float
           (Sample.unary "not" (Sample.number "0")) (Sample.number "0")
           (PyInt 0) "0"
           (sample_unary_is_unary "not" (Sample.number "0")) eq_refl eq_refl).
Defined.

Lemma parse_expr_minus_int_witness :
  is_unary (unwrap_expr_parens (Sample.unary "-" (Sample.number "5"))) "-" /\
  parse_expr Sample.int Sample.float (Sample.unary "-" (Sample.number "5")) =
    Ok (Literal (PyInt (-5)) "-5").
Proof.
  split; [exact (sample_unary_is_unary "-" (Sample.number "5"))|].
  exact (parse_expr_minus_int Sample.int Sample.float
           (Sample.unary "-" (Sample.number "5")) (Sample.number "5") 5 "5"
           (sample_unary_is_unary "-" (Sample.number "5")) eq_refl eq_refl).
Defined.

Lemma parse_expr_minus_minus_witness :
  is_unary (unwrap_expr_parens Probe.minus_minus_5) "-" /\
  parse_expr Sample.int Sample.float Probe.minus_minus_5 =
    Ok (Literal (PyInt 5) "--5").
Proof.
  split; [exact (sample_unary_is_unary "-" (Sample.unary "-" (Sample.number "5")))|].
  exact (parse_expr_minus_minus Sample.int Sample.float
           Probe.minus_minus_5 (Sample.unary "-" (Sample.number "5"))
           (Sample.number "5") 5 "5"
           (sample_unary_is_unary "-" (Sample.unary "-" (Sample.number "5")))
           eq_refl
           (sample_unary_is_unary "-" (Sample.number "5")) eq_refl eq_refl).
Defined.

Lemma parse_expr_literal_witness :
  literalValue (unwrap_expr_parens (Sample.number "1x")) = Some (Probe.numeric "1x") /\
  parse_expr Sample.int Sample.float (Sample.number "1x") =
    Err (ParseError (msg_number "1x")).
Proof.
  split; [reflexivity|].
  apply (proj1 (parse_expr_literal Sample.int Sample.float
                  (Sample.number "1x") (Probe.numeric "1x") eq_refl)).
  repeat split.
Defined.

Lemma parse_expr_string_literal_witness :
  literalValue (unwrap_expr_parens (Probe.quoted Sample.quoted_slug)) =
    Some (Probe.quoted_token Sample.quoted_slug) /\
  parse_expr Sample.int Sample.float (Probe.quoted Sample.quoted_slug) =
    Ok (Literal (PyText "a b") Sample.quoted_slug).
Proof.
  split; [reflexivity|].
  exact (parse_expr_string_literal Sample.int Sample.float
           (Probe.quoted Sample.quoted_slug) (Probe.quoted_token Sample.quoted_slug)
           PyStr.dquote "a b" eq_refl eq_refl eq_refl eq_refl eq_refl eq_refl
           (or_introl eq_refl) eq_refl).
Defined.

Lemma sample_list_is_infix (l : ExprContext) (neg : bool) (es : list ExprContext) :
  is_infix (unwrap_expr_parens (Sample.infix_list l neg "IN" es)) "IN".
Proof. repeat split. exists "IN". split; reflexivity. Defined.

Lemma parse_expr_list_first_error_witness :
  is_infix (unwrap_expr_parens Probe.x_in_bad) "IN" /\
  parse_expr Sample.int Sample.float Probe.x_in_bad =
    Err (ParseError (msg_number "1x")).
Proof.
  split; [exact (sample_list_is_infix _ _ _)|].
  apply (parse_expr_list_first_error Sample.int Sample.float Probe.x_in_bad
           (Sample.number "1x") "IN" [Sample.number "1"] [Sample.number "3"]
           (ParseError (msg_number "1x")) (sample_list_is_infix _ _ _) eq_refl).
  - constructor; [reflexivity|constructor].
  - reflexivity.
Defined.

Lemma parse_expr_empty_list_witness :
  is_infix (unwrap_expr_parens Probe.x_in_none) "IN" /\
  parse_expr Sample.int Sample.float Probe.x_in_none =
    Ok (Expr "IN" [Taxon (Some "x") None false None]) /\
  (m <- parse_expr Sample.int Sample.float Probe.x_in_none ;; to_tel m) = Ok "IN x".
Proof.
  split; [exact (sample_list_is_infix _ _ _)|].
  apply (parse_expr_empty_list Sample.int Sample.float Probe.x_in_none
           (Sample.name "x") "IN" (Taxon (Some "x") None false None) "x"
           (sample_list_is_infix _ _ _)); try reflexivity.
  discriminate.
Defined.

Lemma parse_expr_unsupported_witness :
  literalValue (unwrap_expr_parens Sample.node) = None /\
  parse_expr Sample.int Sample.float Sample.node =
    Err (ParseError (msg_unsupported "")).
Proof.
  split; [reflexivity|].
  exact (parse_expr_unsupported Sample.int Sample.float Sample.node
           eq_refl eq_refl eq_refl eq_refl eq_refl).
Defined.

Lemma parse_function_argument_pair_rule_witness :
  wraps (Sample.paren Probe.a_is_1) Probe.a_is_1 /\
  parse_function_argument_pair (parse_expr Sample.int Sample.float)
    (Sample.paren Probe.a_is_1) =
    Ok (Some "a", Literal (PyInt 1) "1").
Proof.
  assert (Hw : wraps (Sample.paren Probe.a_is_1) Probe.a_is_1).
  { eapply wraps_paren; [reflexivity|apply wraps_here]. }
  split; [exact Hw|].
  exact (proj1 (parse_function_argument_pair_rule Sample.int Sample.float
                  (Sample.paren Probe.a_is_1) Probe.a_is_1 Hw)
           (Sample.number "1") (Literal (PyInt 1) "1") eq_refl eq_refl eq_refl).
Defined.

Lemma function_call_renders_witness :
  is_function (unwrap_expr_parens Probe.f_x_1) Probe.f_call /\
  (m <- parse_expr Sample.int Sample.float Probe.f_x_1 ;; to_tel m) = Ok "f(x,1)".
Proof.
  assert (Hf : is_function (unwrap_expr_parens Probe.f_x_1) Probe.f_call).
  { repeat split. }
  split; [exact Hf|].
  apply (proj2 (function_call_renders Sample.int Sample.float Probe.f_x_1
                  Probe.f_call "f" [Sample.name "x"; Sample.number "1"]
                  [Taxon (Some "x") None false None; Literal (PyInt 1) "1"]
                  ["x"; "1"] Hf eq_refl eq_refl
                  ltac:(repeat constructor; discriminate)
                  ltac:(repeat constructor))).
Defined.

Lemma between_renders_witness :
  is_infix (unwrap_expr_parens (Sample.x_between true)) "BETWEEN" /\
  (n <- parse_expr Sample.int Sample.float (Sample.x_between true) ;; to_tel n) =
    Ok "((x < 1) OR (x > 10))".
Proof.
  assert (H : is_infix (unwrap_expr_parens (Sample.x_between true)) "BETWEEN").
  { repeat split. exists "BETWEEN". split; reflexivity. }
  split; [exact H|].
  exact (between_renders Sample.int Sample.float (Sample.x_between true)
           (Sample.name "x")
           (Sample.infix (Sample.number "1") false "AND" (Sample.number "10"))
           (Taxon (Some "x") None false None)
           (Literal (PyInt 1) "1") (Literal (PyInt 10) "10") "x" "1" "10"
           H eq_refl eq_refl eq_refl eq_refl eq_refl eq_refl eq_refl eq_refl).
Defined.

Lemma unary_renders_witness :
  is_unary (unwrap_expr_parens (Sample.unary "not" (Sample.name "x"))) "NOT" /\
  (m <- parse_expr Sample.int Sample.float (Sample.unary "not" (Sample.name "x")) ;;
   to_tel m) = Ok "NOT x".
Proof.
  split; [exact (sample_unary_is_unary "not" (Sample.name "x"))|].
  apply (proj2 (unary_renders Sample.int Sample.float
                  (Sample.unary "not" (Sample.name "x")) (Sample.name "x") "NOT"
                  (Taxon (Some "x") None false None) "x"
                  (sample_unary_is_unary "not" (Sample.name "x"))
                  ltac:(discriminate) eq_refl eq_refl
                  ltac:(discriminate) eq_refl)).
Defined.

Lemma unquote_wrapped_witness :
  (PyStr.dquote = PyStr.dquote \/ PyStr.dquote = PyStr.squote) /\
  unquote Sample.quoted_slug = "a b".
Proof.
  split; [now left|].
  exact (unquote_wrapped PyStr.dquote "a b" (or_introl eq_refl)).
Defined.

Lemma taxon_renders_witness :
  is_taxon (unwrap_expr_parens Probe.tagged) Probe.full_taxon /\
  (m <- parse_expr Sample.int Sample.float Probe.tagged ;; to_tel m) =
    Ok "?ns|slug:tag".
Proof.
  assert (H : is_taxon (unwrap_expr_parens Probe.tagged) Probe.full_taxon).
  { repeat split. }
  split; [exact H|].
  exact (taxon_renders Sample.int Sample.float Probe.tagged Probe.full_taxon
           "slug" H eq_refl).
Defined.
